(** * scraper_core.py: the extraction and normalisation pipeline of AnimeScraper

    A shallow embedding of [src/scraper_core.py].  Python [str] values are
    Rocq strings whose characters are the code points 0..255; dictionaries
    with a fixed set of keys are records; [self.cache] is a finite map;
    the [seen] sets are finite sets; the HTTP session and the HTML parser
    are collaborators the scraper is parameterised over. *)

From Stdlib Require Import String Ascii List Arith Lia Bool Permutation Sorted.
From stdpp Require Import gmap strings.
Import ListNotations.

Open Scope string_scope.
Open Scope bool_scope.
Open Scope list_scope.

(** ** Python string methods used by the scraper *)

Module Py.

(** [str.isspace] on one character: the code points 9..13, 28..32, 133
    and 160 are the white space of [str.strip] and [str.split]. *)
Definition isspace (c : ascii) : bool :=
  let n := nat_of_ascii c in
  (Nat.leb 9 n && Nat.leb n 13) || (Nat.leb 28 n && Nat.leb n 32)
  || Nat.eqb n 133 || Nat.eqb n 160.

(** [str.lower] on one character: A..Z and the upper-case letters
    192..222 (without the multiplication sign 215) move up by 32. *)
Definition lower_char (c : ascii) : ascii :=
  let n := nat_of_ascii c in
  if (Nat.leb 65 n && Nat.leb n 90)
     || (Nat.leb 192 n && Nat.leb n 222 && negb (Nat.eqb n 215))
  then ascii_of_nat (n + 32) else c.

(** [s.lower()] *)
Fixpoint lower (s : string) : string :=
  match s with
  | "" => ""
  | String c s' => String (lower_char c) (lower s')
  end.

(** [s.lstrip()], [s.rstrip()] and [s.strip()] *)
Fixpoint lstrip (s : string) : string :=
  match s with
  | "" => ""
  | String c s' => if isspace c then lstrip s' else s
  end.

Fixpoint rstrip (s : string) : string :=
  match s with
  | "" => ""
  | String c s' =>
      match rstrip s' with
      | "" => if isspace c then "" else String c ""
      | r => String c r
      end
  end.

Definition strip (s : string) : string := rstrip (lstrip s).

(** [s.startswith(p)] *)
Definition startswith (s p : string) : bool := String.prefix p s.

(** [sub in s] *)
Fixpoint contains (sub s : string) : bool :=
  String.prefix sub s
  || match s with
     | "" => false
     | String _ s' => contains sub s'
     end.

(** [any(w in s for w in words)] *)
Definition contains_any (words : list string) (s : string) : bool :=
  existsb (fun w => contains w s) words.

(** [s.replace(old, new)]: the occurrences of [old] are replaced from
    left to right, without overlap; [skip] counts the characters of an
    occurrence still to be dropped. *)
Fixpoint replace_from (old new : string) (skip : nat) (s : string) : string :=
  match s with
  | "" => ""
  | String c s' =>
      match skip with
      | S k => replace_from old new k s'
      | O =>
          if String.prefix old s
          then (new ++ replace_from old new (String.length old - 1) s')%string
          else String c (replace_from old new 0 s')
      end
  end.

Fixpoint interleave (new s : string) : string :=
  match s with
  | "" => new
  | String c s' => (new ++ String c (interleave new s'))%string
  end.

Definition replace (old new s : string) : string :=
  match old with
  | "" => interleave new s
  | _ => replace_from old new 0 s
  end.

(** [s.split()]: the maximal runs of characters that are not white
    space. *)
Definition starts_word (s : string) : bool :=
  match s with
  | "" => false
  | String c _ => negb (isspace c)
  end.

Fixpoint split (s : string) : list string :=
  match s with
  | "" => []
  | String c s' =>
      if isspace c then split s'
      else if starts_word s' then
             match split s' with
             | w :: ws => String c w :: ws
             | [] => [String c ""]
             end
           else String c "" :: split s'
  end.

(** [sep.join(parts)] *)
Definition join (sep : string) (parts : list string) : string :=
  String.concat sep parts.

(** [s[:n]] *)
Fixpoint slice_to (n : nat) (s : string) : string :=
  match n, s with
  | S k, String c s' => String c (slice_to k s')
  | _, _ => ""
  end.

(** [len(s)] *)
Definition len (s : string) : nat := String.length s.

(** [s1 <= s2] on [str]: lexicographic order of the code points. *)
Fixpoint str_leb (s1 s2 : string) : bool :=
  match s1, s2 with
  | "", _ => true
  | String _ _, "" => false
  | String c1 r1, String c2 r2 =>
      let n1 := nat_of_ascii c1 in
      let n2 := nat_of_ascii c2 in
      if Nat.ltb n1 n2 then true
      else if Nat.ltb n2 n1 then false
      else str_leb r1 r2
  end.

(** The truth value of a string in a condition: [if s:]. *)
Definition truthy (s : string) : bool := negb (String.eqb s "").

(** [c * n] for a one-character string, used to build long inputs. *)
Fixpoint repeat_char (c : ascii) (n : nat) : string :=
  match n with
  | O => ""
  | S k => String c (repeat_char c k)
  end.

End Py.

(** ** [list.sort(key=...)]

    Python's sort is stable: records with equal keys keep their relative
    order.  It is modelled by the stable insertion sort. *)

Section ListSort.
Context {A K : Type} (key : A -> K) (leb : K -> K -> bool).

Fixpoint insert_by (x : A) (l : list A) : list A :=
  match l with
  | [] => [x]
  | y :: l' => if leb (key x) (key y) then x :: l else y :: insert_by x l'
  end.

Fixpoint sort_by (l : list A) : list A :=
  match l with
  | [] => []
  | x :: l' => insert_by x (sort_by l')
  end.
End ListSort.

(** ** Data model *)

(** An anime record: the dictionary [{"title": ..., "url": ...}]. *)
Record Anime := { title : string; url : string }.

Global Instance Anime_eq_dec : EqDecision Anime.
Proof. solve_decision. Defined.

(** The dictionary returned by [categorize_anime]. *)
Record Categorized := {
  ongoing : list Anime;
  completed : list Anime;
  movies : list Anime
}.

(** A download link: [{"text": ..., "url": ..., "type": ...}]. *)
Record DownloadLink := {
  link_text : string;
  link_url : string;
  link_type : string
}.

(** *** The parsed document

    Of a BeautifulSoup element the scraper reads the text strings below
    it and its [href] attribute; of the document it asks for the elements
    matching a CSS selector and for the anchors, both in document order. *)
Record Tag := {
  tag_strings : list string;
  tag_href : option string
}.

Record BeautifulSoup := {
  select : string -> list Tag;
  anchors : list Tag
}.

(** [tag.get_text(strip=True)]: the stripped strings that are not empty,
    concatenated. *)
Definition get_text_strip (t : Tag) : string :=
  Py.join "" (List.filter Py.truthy (map Py.strip (tag_strings t))).

(** [soup.find_all('a', href=True)] *)
Definition find_all_a_href (soup : BeautifulSoup) : list Tag :=
  List.filter (fun t => match tag_href t with Some _ => true | None => false end)
              (anchors soup).

(** [link.get('href', '')] *)
Definition get_href (link : Tag) : string :=
  match tag_href link with
  | Some h => h
  | None => ""
  end.

(** ** The pure methods of [AnimeScraper] *)

Definition skip_words : list string :=
  ["facebook"; "faq"; "genre"; "jadwal"; "anime-list"].

(** The body of the loop of [extract_anime_links]: one anchor. *)
Definition extract_anime_links_step (anime_list : list Anime) (link : Tag)
  : list Anime :=
  let href := get_href link in
  let title := get_text_strip link in
  if (Py.contains "sub-indo" (Py.lower href)
      || Py.contains "subtitle-indonesia" (Py.lower href))
     && Py.truthy title && Nat.ltb 3 (Py.len title)
     && Py.contains "meownime.ltd" href
     && negb (Py.contains_any skip_words (Py.lower href))
  then
    let title := Py.strip title in
    if Py.truthy title && Nat.ltb 2 (Py.len title)
    then anime_list ++ [{| title := title; url := href |}]
    else anime_list
  else anime_list.

Definition extract_anime_links (soup : BeautifulSoup) : list Anime :=
  let links := find_all_a_href soup in
  fold_left extract_anime_links_step links [].

Definition unwanted_patterns : list string :=
  ["Sub Indo"; "Subtitle Indonesia"; "Episode"; "Batch";
   "Download"; "Streaming"; "Watch"; "Online"].

Definition clean_title (title : string) : string :=
  let cleaned := Py.strip title in
  let cleaned :=
    fold_left
      (fun cleaned pattern =>
         Py.replace (Py.lower pattern) "" (Py.replace pattern "" cleaned))
      unwanted_patterns cleaned in
  let cleaned := Py.join " " (Py.split cleaned) in
  if Nat.ltb 2 (Py.len cleaned) then cleaned else Py.strip title.

Definition sequel_keywords : list string :=
  ["season 2"; "season 3"; "season 4"; "s2"; "s3"; "s4"; "part 2"; "part 3"].

Definition recency_keywords : list string :=
  ["2025"; "2024"; "ongoing"; "airing"].

(** The body of the loop of [categorize_anime]: one record. *)
Definition categorize_step (data : Categorized) (anime : Anime) : Categorized :=
  let title_lower := Py.lower (title anime) in
  let url_lower := Py.lower (url anime) in
  if Py.contains "movie" title_lower || Py.contains "movie" url_lower
     || Py.contains "film" url_lower
  then {| ongoing := ongoing data; completed := completed data;
          movies := movies data ++ [anime] |}
  else if Py.contains_any sequel_keywords title_lower
  then {| ongoing := ongoing data ++ [anime]; completed := completed data;
          movies := movies data |}
  else if Py.contains_any recency_keywords title_lower
  then {| ongoing := ongoing data ++ [anime]; completed := completed data;
          movies := movies data |}
  else {| ongoing := ongoing data; completed := completed data ++ [anime];
          movies := movies data |}.

Definition categorize_anime (anime_list : list Anime) : Categorized :=
  fold_left categorize_step anime_list
            {| ongoing := []; completed := []; movies := [] |}.

(** The key of the deduplicator: [anime['title'].lower().strip()]. *)
Definition title_key (anime : Anime) : string :=
  Py.strip (Py.lower (title anime)).

Definition remove_duplicates_step (st : gset string * list Anime) (anime : Anime)
  : gset string * list Anime :=
  let '(seen, unique_anime) := st in
  let title_key := title_key anime in
  if bool_decide (title_key ∉ seen) && Nat.ltb 2 (Py.len title_key)
  then ({[title_key]} ∪ seen, unique_anime ++ [anime])
  else (seen, unique_anime).

Definition remove_duplicates (anime_list : list Anime) : list Anime :=
  snd (fold_left remove_duplicates_step anime_list (∅, [])).

Definition synopsis_selectors : list string :=
  [".entry-content p"; ".post-content p"; ".content p"; "p"].

Definition synopsis_stop_words : list string := ["download"; "link"; "episode"].

(** The body of the inner loop of [extract_synopsis]: one paragraph. *)
Definition synopsis_add (synopsis_parts : list string) (p : Tag) : list string :=
  let text := get_text_strip p in
  if Nat.ltb 30 (Py.len text)
     && negb (Py.contains_any synopsis_stop_words (Py.lower text))
  then synopsis_parts ++ [text]
  else synopsis_parts.

(** The loop over the selectors, with its [break]. *)
Fixpoint synopsis_loop (soup : BeautifulSoup) (selectors : list string)
         (synopsis_parts : list string) : list string :=
  match selectors with
  | [] => synopsis_parts
  | selector :: rest =>
      match select soup selector with
      | [] => synopsis_loop soup rest synopsis_parts
      | elements =>
          let synopsis_parts :=
            fold_left synopsis_add (firstn 3 elements) synopsis_parts in
          match synopsis_parts with
          | [] => synopsis_loop soup rest synopsis_parts
          | _ => synopsis_parts
          end
      end
  end.

Definition extract_synopsis (soup : BeautifulSoup) : string :=
  let synopsis_parts := synopsis_loop soup synopsis_selectors [] in
  let synopsis := Py.join " " synopsis_parts in
  if Nat.ltb 500 (Py.len synopsis)
  then (Py.slice_to 500 synopsis ++ "...")%string
  else synopsis.

Definition determine_link_type (url : string) : string :=
  let url_lower := Py.lower url in
  if Py.contains "drive.google.com" url_lower then "Google Drive"
  else if Py.contains "mega.nz" url_lower then "MEGA"
  else if Py.contains "mediafire.com" url_lower then "MediaFire"
  else if Py.contains "zippyshare.com" url_lower then "ZippyShare"
  else if Py.contains "solidfiles.com" url_lower then "SolidFiles"
  else if Py.contains "uptobox.com" url_lower then "Uptobox"
  else "Other".

Definition download_domains : list string :=
  ["drive.google.com"; "mega.nz"; "mediafire.com";
   "zippyshare.com"; "solidfiles.com"; "uptobox.com"].

(** First loop of [extract_download_links]: the anchors kept. *)
Definition collect_download_links (links : list Tag) : list DownloadLink :=
  fold_left
    (fun download_links link =>
       let href := get_href link in
       let text := get_text_strip link in
       if existsb (fun domain => Py.contains domain href) download_domains
       then download_links ++
              [{| link_text := Py.slice_to 100 text; link_url := href;
                  link_type := determine_link_type href |}]
       else download_links)
    links [].

(** Second loop: one link per url. *)
Definition unique_links_step (st : gset string * list DownloadLink)
           (link : DownloadLink) : gset string * list DownloadLink :=
  let '(seen_urls, unique_links) := st in
  if bool_decide (link_url link ∉ seen_urls)
  then ({[link_url link]} ∪ seen_urls, unique_links ++ [link])
  else (seen_urls, unique_links).

Definition extract_download_links (soup : BeautifulSoup) : list DownloadLink :=
  let links := find_all_a_href soup in
  let download_links := collect_download_links links in
  let unique_links := snd (fold_left unique_links_step download_links (∅, [])) in
  firstn 10 unique_links.

(** ** The fetcher and the methods that fetch *)

(** What [self.session.get(url, timeout=15)] does: it raises a
    [requests.RequestException] (connection error, timeout, ...) or returns
    a response with a status code and a body. *)
Inductive Outcome :=
| RequestException
| Response (status_code : nat) (text : string).

(** [response.raise_for_status()] raises [HTTPError], a
    [RequestException], for the client and server error codes 400..599. *)
Definition raise_for_status (status_code : nat) : bool :=
  Nat.leb 400 status_code && Nat.ltb status_code 600.

(** The scraper object: [self.cache], the network the session talks to,
    and the trace of the GETs issued through the session. *)
Record Scraper (World : Type) := {
  cache : gmap string string;
  world : World;
  transport_log : list string
}.
Arguments cache {World} _.
Arguments world {World} _.
Arguments transport_log {World} _.

Definition base_url : string := "https://meownime.ltd".

(** The sort key of [search_anime] and the order of Python tuples on it. *)
Definition search_key (query_lower : string) (x : Anime) : bool * nat :=
  (negb (Py.startswith (Py.lower (title x)) query_lower), Py.len (title x)).

Definition tuple_leb (k1 k2 : bool * nat) : bool :=
  match fst k1, fst k2 with
  | false, true => true
  | true, false => false
  | _, _ => Nat.leb (snd k1) (snd k2)
  end.

Section Fetching.
Context {World : Type}.
(** [self.session.get] and [BeautifulSoup(html, 'html.parser')] *)
Variable session_get : string -> World -> Outcome * World.
Variable html_parser : string -> BeautifulSoup.

Definition get_page (url : string) (use_cache : bool) (self : Scraper World)
  : option string * Scraper World :=
  match (if use_cache then cache self !! url else None) with
  | Some body => (Some body, self)
  | None =>
      let '(outcome, w) := session_get url (world self) in
      let log := transport_log self ++ [url] in
      match outcome with
      | RequestException =>
          (None, {| cache := cache self; world := w; transport_log := log |})
      | Response status_code text =>
          if raise_for_status status_code
          then (None, {| cache := cache self; world := w; transport_log := log |})
          else (Some text,
                {| cache := <[url := text]> (cache self); world := w;
                   transport_log := log |})
      end
  end.

Definition scrape_anime_list (letter : option string) (self : Scraper World)
  : list Anime * Scraper World :=
  let url := (base_url ++ "/anime-list-baru")%string in
  let '(html, self) := get_page url true self in
  match html with
  | None | Some "" => ([], self)
  | Some html =>
      let soup := html_parser html in
      let anime_list := extract_anime_links soup in
      let anime_list := remove_duplicates anime_list in
      let anime_list :=
        match letter with
        | None | Some "" => anime_list
        | Some letter =>
            List.filter
              (fun anime =>
                 Py.startswith (Py.lower (title anime)) (Py.lower letter))
              anime_list
        end in
      (sort_by (fun x => Py.lower (title x)) Py.str_leb anime_list, self)
  end.

(** The part of [search_anime] after the list is fetched. *)
Definition search_results (all_anime : list Anime) (query : string) : list Anime :=
  let query_lower := Py.strip (Py.lower query) in
  if negb (Py.truthy query_lower) then []
  else
    let results :=
      fold_left
        (fun results anime =>
           let title_lower := Py.lower (title anime) in
           if Py.contains query_lower title_lower
           then results ++ [anime] else results)
        all_anime [] in
    let results := sort_by (search_key query_lower) tuple_leb results in
    firstn 25 results.

Definition search_anime (query : string) (self : Scraper World)
  : list Anime * Scraper World :=
  let '(all_anime, self) := scrape_anime_list None self in
  (search_results all_anime query, self).
End Fetching.

(** ** Scrapers and networks for the examples *)

(** [AnimeScraper()]: an empty cache, nothing fetched yet. *)
Definition new_scraper {World : Type} (w : World) : Scraper World :=
  {| cache := ∅; world := w; transport_log := [] |}.

(** A network that is down: every GET raises a connection error. *)
Definition network_down (url : string) (w : unit) : Outcome * unit :=
  (RequestException, w).

(** A server that answers every GET with 304 Not Modified and no body. *)
Definition not_modified_server (url : string) (w : unit) : Outcome * unit :=
  (Response 304 "", w).

(** An anchor with one text. *)
Definition anchor (text href : string) : Tag :=
  {| tag_strings := [text]; tag_href := Some href |}.

(** A server that serves the list page with status 200, the world counting
    the GETs it has answered, and the document the parser makes of that
    page: three anime links and the link to the genre index. *)
Definition list_page_html : string := "<html>anime-list-baru</html>".

Definition list_page_server (url : string) (w : nat) : Outcome * nat :=
  (Response 200 list_page_html, S w).

Definition list_page_parser (html : string) : BeautifulSoup :=
  if String.eqb html list_page_html
  then {| select := fun _ => [];
          anchors :=
            [anchor "Naruto Shippuden"
                    "https://meownime.ltd/naruto-shippuden-sub-indo/";
             anchor "Genre" "https://meownime.ltd/genre/";
             anchor "Boruto: Naruto Next"
                    "https://meownime.ltd/boruto-subtitle-indonesia/";
             anchor " Naruto " "https://meownime.ltd/naruto-sub-indo/";
             anchor "naruto" "https://meownime.ltd/naruto-kecil-sub-indo/"] |}
  else {| select := fun _ => []; anchors := [] |}.

(** ** Specification functions and example pages

    What the loops compute, written as filters and recursive functions for
    the statements below, and the pages the examples run on. *)

(** The loops "keep a record when its key is new" of [remove_duplicates]
    and [extract_download_links]. *)

Section FirstOccurrences.
Context {A : Type} (key : A -> string) (eligible : string -> bool).

Fixpoint first_occurrences (seen : gset string) (l : list A) : list A :=
  match l with
  | [] => []
  | x :: l' =>
      if bool_decide (key x ∉ seen) && eligible (key x)
      then x :: first_occurrences ({[key x]} ∪ seen) l'
      else first_occurrences seen l'
  end.
End FirstOccurrences.

(** The test and the record of [extract_anime_links] for one anchor. *)
Definition is_anime_link (link : Tag) : bool :=
  (Py.contains "sub-indo" (Py.lower (get_href link))
   || Py.contains "subtitle-indonesia" (Py.lower (get_href link)))
  && Py.truthy (get_text_strip link) && Nat.ltb 3 (Py.len (get_text_strip link))
  && Py.contains "meownime.ltd" (get_href link)
  && negb (Py.contains_any skip_words (Py.lower (get_href link)))
  && (Py.truthy (Py.strip (get_text_strip link))
      && Nat.ltb 2 (Py.len (Py.strip (get_text_strip link)))).

Definition anime_of_link (link : Tag) : Anime :=
  {| title := Py.strip (get_text_strip link); url := get_href link |}.

(** The letter filter of [scrape_anime_list]. *)
Definition letter_filter (letter : option string) (anime_list : list Anime)
  : list Anime :=
  match letter with
  | None | Some "" => anime_list
  | Some letter =>
      List.filter
        (fun anime => Py.startswith (Py.lower (title anime)) (Py.lower letter))
        anime_list
  end.

(** The rules of [categorize_anime], one predicate per rule. *)
Definition movie_rule (anime : Anime) : bool :=
  Py.contains "movie" (Py.lower (title anime))
  || Py.contains "movie" (Py.lower (url anime))
  || Py.contains "film" (Py.lower (url anime)).

Definition sequel_rule (anime : Anime) : bool :=
  Py.contains_any sequel_keywords (Py.lower (title anime)).

Definition recency_rule (anime : Anime) : bool :=
  Py.contains_any recency_keywords (Py.lower (title anime)).

Definition ongoing_rule (anime : Anime) : bool :=
  negb (movie_rule anime) && (sequel_rule anime || recency_rule anime).

Definition completed_rule (anime : Anime) : bool :=
  negb (movie_rule anime) && negb (sequel_rule anime) && negb (recency_rule anime).

(** A record the movie rule misses although its title contains "film". *)
Definition film_title_record : Anime :=
  {| title := "Naruto the film";
     url := "https://meownime.ltd/naruto-the-last-sub-indo/" |}.

(** The steps of [clean_title]: the loop over the patterns and the
    collapse of white space. *)
Definition remove_patterns (cleaned : string) : string :=
  fold_left
    (fun cleaned pattern =>
       Py.replace (Py.lower pattern) "" (Py.replace pattern "" cleaned))
    unwanted_patterns cleaned.

Definition collapse_spaces (cleaned : string) : string :=
  Py.join " " (Py.split cleaned).

(** A title is clean when none of the unwanted patterns, as listed or
    lower-cased, occurs in it. *)
Definition pattern_free (title : string) : bool :=
  forallb (fun pattern => negb (Py.contains pattern title)
                          && negb (Py.contains (Py.lower pattern) title))
          unwanted_patterns.

(** A word: not empty and without white space. *)
Fixpoint no_space (w : string) : bool :=
  match w with
  | "" => true
  | String c w' => negb (Py.isspace c) && no_space w'
  end.

Definition is_word (w : string) : bool := Py.truthy w && no_space w.

(** The truncation at the end of [extract_synopsis]. *)
Definition ellipsize (synopsis : string) : string :=
  if Nat.ltb 500 (Py.len synopsis)
  then (Py.slice_to 500 synopsis ++ "...")%string
  else synopsis.

(** A paragraph with one text. *)
Definition paragraph (text : string) : Tag :=
  {| tag_strings := [text]; tag_href := None |}.

(** A detail page whose entry content has five paragraphs; the first, the
    third and the fourth are longer than 30 characters. *)
Definition five_paragraphs : list Tag :=
  [paragraph "Naruto Uzumaki wants to become the Hokage.";
   paragraph "Studio Pierrot";
   paragraph "A fox spirit was sealed inside him at birth.";
   paragraph "He trains with Sasuke and Sakura in Team Seven.";
   paragraph "220 eps"].

Definition five_paragraph_page : BeautifulSoup :=
  {| select := fun selector =>
                 if String.eqb selector ".entry-content p"
                    || String.eqb selector "p"
                 then five_paragraphs else [];
     anchors := [] |}.

(** A detail page with one paragraph of 501 characters. *)
Definition long_paragraph_page : BeautifulSoup :=
  {| select := fun selector =>
                 if String.eqb selector "p"
                 then [paragraph (Py.repeat_char "a" 501)] else [];
     anchors := [] |}.

(** A paragraph qualifies for the synopsis. *)
Definition qualifies (p : Tag) : bool :=
  Nat.ltb 30 (Py.len (get_text_strip p))
  && negb (Py.contains_any synopsis_stop_words (Py.lower (get_text_strip p))).

(** The anchors of a list that have an href with an allowlisted domain. *)
Definition download_anchors (links : list Tag) : list Tag :=
  List.filter
    (fun link =>
       match tag_href link with
       | Some href => existsb (fun domain => Py.contains domain href)
                              download_domains
       | None => false
       end)
    links.

(** An anchor is a download link. *)
Definition is_download_href (href : string) : bool :=
  existsb (fun domain => Py.contains domain href) download_domains.

Definition download_link_of (link : Tag) : DownloadLink :=
  {| link_text := Py.slice_to 100 (get_text_strip link);
     link_url := get_href link;
     link_type := determine_link_type (get_href link) |}.

(** ** The other methods of [AnimeScraper] and their callers *)

(** The dictionary with three empty lists that [scrape_home_page] returns
    when the page cannot be fetched. *)
Definition no_categories : Categorized :=
  {| ongoing := []; completed := []; movies := [] |}.

(** [metadata]: status and episodes are never filled in. *)
Record Metadata := {
  genre : list string;
  year : option string;
  status : option string;
  episodes : option string
}.

(** The dictionary returned by [scrape_anime_details]. *)
Record AnimeDetail := {
  detail_title : string;
  detail_synopsis : string;
  detail_download_links : list DownloadLink;
  detail_metadata : Metadata;
  detail_url : string
}.

(** The dictionary returned by [get_statistics]. *)
Record Statistics := {
  total_anime : nat;
  ongoing_count : nat;
  completed_count : nat;
  movies_count : nat;
  cache_size : nat
}.

Definition title_selectors : list string :=
  ["h1"; ".entry-title"; ".post-title"; "title"].

Definition genre_selectors : list string :=
  [".genre a"; ".genres a";
   ("[rel=" ++ String "034" ("tag" ++ String "034" "]"))%string].

(** The loop over the genre selectors: the first selector that returns
    elements gives the genres, five at most. *)
Fixpoint genre_loop (soup : BeautifulSoup) (selectors : list string)
  : list string :=
  match selectors with
  | [] => []
  | selector :: rest =>
      match select soup selector with
      | [] => genre_loop soup rest
      | genre_elements => map get_text_strip (firstn 5 genre_elements)
      end
  end.

(** *** [re.search(r'\b(19|20)\d{2}\b', text)]

    [\d] is a decimal digit and [\w], which decides the word boundaries,
    a character that is alphanumeric for [str] or the underscore. *)
Definition isdigit (c : ascii) : bool :=
  let n := nat_of_ascii c in Nat.leb 48 n && Nat.leb n 57.

Definition isword (c : ascii) : bool :=
  let n := nat_of_ascii c in
  (Nat.leb 48 n && Nat.leb n 57) || (Nat.leb 65 n && Nat.leb n 90)
  || (Nat.leb 97 n && Nat.leb n 122) || Nat.eqb n 95
  || Nat.eqb n 170 || Nat.eqb n 178 || Nat.eqb n 179 || Nat.eqb n 181
  || Nat.eqb n 185 || Nat.eqb n 186 || (Nat.leb 188 n && Nat.leb n 190)
  || (Nat.leb 192 n && Nat.leb n 214) || (Nat.leb 216 n && Nat.leb n 246)
  || (Nat.leb 248 n && Nat.leb n 255).

(** A match of [(19|20)\d{2}\b] at the start of [s]. *)
Definition year_at (s : string) : option string :=
  match s with
  | String a (String b (String c (String d rest))) =>
      if ((Ascii.eqb a "1" && Ascii.eqb b "9")
          || (Ascii.eqb a "2" && Ascii.eqb b "0"))
         && isdigit c && isdigit d
         && negb (match rest with
                  | "" => false
                  | String e _ => isword e
                  end)
      then Some (String a (String b (String c (String d ""))))
      else None
  | _ => None
  end.

(** The search from left to right; [after_word] tells whether the
    character before [s] is a word character. *)
Fixpoint year_search (after_word : bool) (s : string) : option string :=
  match s with
  | "" => None
  | String c s' =>
      match (if after_word then None else year_at s) with
      | Some year_match => Some year_match
      | None => year_search (isword c) s'
      end
  end.

(** A response of the Flask routes: [jsonify(data)] with status 200, or
    [jsonify({"error": message}), status]. *)
Inductive ApiResponse (A : Type) :=
| ApiOk (data : A)
| ApiError (message : string) (status : nat).
Arguments ApiOk {A} _.
Arguments ApiError {A} _ _.

Section Scraping.
Context {World : Type}.
(** [self.session.get], [BeautifulSoup(html, 'html.parser')], and the two
    other queries of a parsed document: [soup.find(name)] and
    [soup.get_text()]. *)
Variable session_get : string -> World -> Outcome * World.
Variable html_parser : string -> BeautifulSoup.
Variable find : BeautifulSoup -> string -> option Tag.
Variable get_text : BeautifulSoup -> string.

Definition scrape_home_page (self : Scraper World)
  : Categorized * Scraper World :=
  let '(html, self) := get_page session_get base_url true self in
  match html with
  | None | Some "" => (no_categories, self)
  | Some html =>
      let soup := html_parser html in
      let anime_list := extract_anime_links soup in
      let anime_list := remove_duplicates anime_list in
      let categorized_data := categorize_anime anime_list in
      ({| ongoing := firstn 20 (ongoing categorized_data);
          completed := firstn 20 (completed categorized_data);
          movies := firstn 20 (movies categorized_data) |}, self)
  end.

(** The loop over the title selectors of [scrape_anime_details]. *)
Fixpoint title_loop (soup : BeautifulSoup) (selectors : list string) : string :=
  match selectors with
  | [] => "Unknown Title"
  | selector :: rest =>
      match find soup selector with
      | Some title_element => clean_title (get_text_strip title_element)
      | None => title_loop soup rest
      end
  end.

Definition extract_metadata (soup : BeautifulSoup) : Metadata :=
  {| genre := genre_loop soup genre_selectors;
     year := year_search false (get_text soup);
     status := None;
     episodes := None |}.

Definition scrape_anime_details (anime_url : string) (self : Scraper World)
  : option AnimeDetail * Scraper World :=
  let '(html, self) := get_page session_get anime_url true self in
  match html with
  | None | Some "" => (None, self)
  | Some html =>
      let soup := html_parser html in
      (Some {| detail_title := title_loop soup title_selectors;
               detail_synopsis := extract_synopsis soup;
               detail_download_links := extract_download_links soup;
               detail_metadata := extract_metadata soup;
               detail_url := anime_url |}, self)
  end.

Definition get_statistics (self : Scraper World) : Statistics * Scraper World :=
  let '(home_data, self) := scrape_home_page self in
  let '(all_anime, self) := scrape_anime_list session_get html_parser None self in
  ({| total_anime := length all_anime;
      ongoing_count := length (ongoing home_data);
      completed_count := length (completed home_data);
      movies_count := length (movies home_data);
      cache_size := size (cache self) |}, self).

End Scraping.

(** *** The routes of [app.py]

    A call of a method of the global scraper returns a value or raises an
    exception; either way it leaves the scraper in some state.  The routes
    are written over the methods as they run, so that the exceptions the
    decorator [handle_api_error] catches are part of the model.  A query
    parameter is [None] when it is absent from the request. *)
Inductive Run (A : Type) :=
| Returns (value : A)
| Raises (message : string).
Arguments Returns {A} _.
Arguments Raises {A} _.

(** A call that returns what the modelled method computes. *)
Definition returning {A S : Type} (result : A * S) : Run A * S :=
  (Returns (fst result), snd result).

(** The decorator [handle_api_error]: an exception raised in the route
    becomes the answer 500 with its message. *)
Definition handle_api_error {A : Type} (run : Run (ApiResponse A))
  : ApiResponse A :=
  match run with
  | Returns response => response
  | Raises e => ApiError ("An error occurred: " ++ e)%string 500
  end.

Section Routes.
Context {World : Type}.

Definition api_home
           (scrape_home_page : Scraper World -> Run Categorized * Scraper World)
           (scraper : Scraper World)
  : ApiResponse Categorized * Scraper World :=
  let '(data, scraper) := scrape_home_page scraper in
  (handle_api_error
     match data with
     | Raises e => Raises e
     | Returns data => Returns (ApiOk data)
     end, scraper).

Definition api_anime_list
           (scrape_anime_list :
              option string -> Scraper World -> Run (list Anime) * Scraper World)
           (letter : option string) (scraper : Scraper World)
  : ApiResponse (list Anime) * Scraper World :=
  let '(data, scraper) := scrape_anime_list letter scraper in
  (handle_api_error
     match data with
     | Raises e => Raises e
     | Returns data => Returns (ApiOk data)
     end, scraper).

Definition api_anime_details
           (scrape_anime_details :
              string -> Scraper World -> Run (option AnimeDetail) * Scraper World)
           (url : option string) (scraper : Scraper World)
  : ApiResponse AnimeDetail * Scraper World :=
  match url with
  | None | Some "" => (ApiError "URL parameter required" 400, scraper)
  | Some url =>
      let '(data, scraper) := scrape_anime_details url scraper in
      (handle_api_error
         match data with
         | Raises e => Raises e
         | Returns (Some data) => Returns (ApiOk data)
         | Returns None => Returns (ApiError "Failed to fetch anime details" 404)
         end, scraper)
  end.

Definition api_search
           (search_anime :
              string -> Scraper World -> Run (list Anime) * Scraper World)
           (q : option string) (scraper : Scraper World)
  : ApiResponse (list Anime) * Scraper World :=
  let query := match q with Some query => query | None => "" end in
  if negb (Py.truthy query)
  then (ApiError "Query parameter 'q' required" 400, scraper)
  else
    let '(results, scraper) := search_anime query scraper in
    (handle_api_error
       match results with
       | Raises e => Raises e
       | Returns results => Returns (ApiOk results)
       end, scraper).

Definition api_statistics
           (get_statistics : Scraper World -> Run Statistics * Scraper World)
           (scraper : Scraper World)
  : ApiResponse Statistics * Scraper World :=
  let '(stats, scraper) := get_statistics scraper in
  (handle_api_error
     match stats with
     | Raises e => Raises e
     | Returns stats => Returns (ApiOk stats)
     end, scraper).
End Routes.

(** A detail page where the entry content has one short paragraph only, so
    that the synopsis comes from the last selector, and a page without
    elements. *)
Definition fallback_page : BeautifulSoup :=
  {| select := fun selector =>
                 if String.eqb selector ".entry-content p"
                 then [paragraph "Studio Pierrot"]
                 else if String.eqb selector "p"
                 then [paragraph "Studio Pierrot";
                       paragraph "A fox spirit was sealed inside him at birth."]
                 else [];
     anchors := [] |}.

Definition blank_page : BeautifulSoup :=
  {| select := fun _ => []; anchors := [] |}.

(** A detail page with two anchors to the same file and one to another. *)
Definition download_page : BeautifulSoup :=
  {| select := fun _ => [];
     anchors := [anchor "Episode 1" "https://drive.google.com/file/d/1";
                 anchor "Mirror" "https://drive.google.com/file/d/1";
                 anchor "Batch" "https://mega.nz/file/2";
                 anchor "Home" "https://meownime.ltd/"] |}.

(** A detail page: its server, the document the parser makes of it, and
    the answers of [soup.find] and [soup.get_text] on that document.  The
    page has no [h1]; its [title] element is found. *)
Definition detail_page_html : string := "<html>naruto-sub-indo</html>".

Definition detail_server (url : string) (w : nat) : Outcome * nat :=
  (Response 200 detail_page_html, S w).

Definition detail_page : BeautifulSoup :=
  {| select := fun selector =>
                 if String.eqb selector ".genres a"
                 then [anchor "Action" "https://meownime.ltd/genre/action/";
                       anchor "Adventure" "https://meownime.ltd/genre/adventure/"]
                 else if String.eqb selector "p"
                 then [paragraph "A fox spirit was sealed inside him at birth."]
                 else [];
     anchors := [anchor "Action" "https://meownime.ltd/genre/action/";
                 anchor "Adventure" "https://meownime.ltd/genre/adventure/";
                 anchor "Batch" "https://mega.nz/file/2"] |}.

Definition detail_parser (html : string) : BeautifulSoup := detail_page.

Definition detail_find (soup : BeautifulSoup) (name : string) : option Tag :=
  if String.eqb name "title"
  then Some (paragraph "Naruto Subtitle Indonesia Batch")
  else None.

Definition detail_get_text (soup : BeautifulSoup) : string :=
  "Naruto Subtitle Indonesia Batch 220 eps, 2002 - 2007".

(** A document query that finds no element. *)
Definition find_nothing (soup : BeautifulSoup) (name : string) : option Tag :=
  None.

(** The details of the detail page, with and without its title element. *)
Definition naruto_detail : AnimeDetail :=
  {| detail_title := "Naruto";
     detail_synopsis := "A fox spirit was sealed inside him at birth.";
     detail_download_links :=
       [{| link_text := "Batch"; link_url := "https://mega.nz/file/2";
           link_type := "MEGA" |}];
     detail_metadata :=
       {| genre := ["Action"; "Adventure"]; year := Some "2002";
          status := None; episodes := None |};
     detail_url := "https://meownime.ltd/naruto-sub-indo/" |}.

Definition untitled_detail : AnimeDetail :=
  {| detail_title := "Unknown Title";
     detail_synopsis := detail_synopsis naruto_detail;
     detail_download_links := detail_download_links naruto_detail;
     detail_metadata := detail_metadata naruto_detail;
     detail_url := detail_url naruto_detail |}.

(** A server whose connection the client cannot parse: [session.get]
    raises an exception that is not a [RequestException], so the method
    that fetches raises. *)
Definition details_raising (url : string) (scraper : Scraper nat)
  : Run (option AnimeDetail) * Scraper nat :=
  (Raises "Failed to parse", scraper).

(** * Proofs *)

(** ** The string model on small inputs *)

Example lower_example : Py.lower "Naruto: Sub INDO" = "naruto: sub indo".
Proof. reflexivity. Qed.

Example strip_example : Py.strip "  One Piece  " = "One Piece".
Proof. reflexivity. Qed.

Example split_example : Py.split "  One   Piece  x " = ["One"; "Piece"; "x"].
Proof. reflexivity. Qed.

Example join_example : Py.join " " ["One"; "Piece"] = "One Piece".
Proof. reflexivity. Qed.

Example replace_example :
  Py.replace "aa" "" "aaaxaa" = "ax" /\ Py.replace "ab" "-" "cababab" = "c---"
  /\ Py.replace "" "-" "abc" = "-a-b-c-".
Proof. repeat split; reflexivity. Qed.

Example contains_example :
  Py.contains "rut" "Naruto" = true /\ Py.contains "rub" "Naruto" = false
  /\ Py.contains "" "" = true.
Proof. repeat split; reflexivity. Qed.

Example str_leb_example :
  Py.str_leb "naruto" "naruto shippuden" = true
  /\ Py.str_leb "naruto" "boruto" = false /\ Py.str_leb "Z" "a" = true.
Proof. repeat split; reflexivity. Qed.

Example clean_title_example :
  clean_title "  One Piece Subtitle Indonesia Batch " = "One Piece"
  /\ clean_title "Episode 1" = "Episode 1".
Proof. split; reflexivity. Qed.

Example determine_link_type_example :
  determine_link_type "https://MEGA.nz/file/abc" = "MEGA"
  /\ determine_link_type "https://example.org/file" = "Other".
Proof. split; reflexivity. Qed.

(** ** Loops that collect *)

Lemma fold_left_collect {A B : Type} (p : A -> bool) (f : A -> B) l acc :
  fold_left (fun acc x => if p x then acc ++ [f x] else acc) l acc
  = acc ++ map f (List.filter p l).
Proof.
  revert acc. induction l as [|x l IH]; intros acc; simpl.
  - now rewrite app_nil_r.
  - rewrite IH. destruct (p x); simpl; [now rewrite <- app_assoc|reflexivity].
Qed.

Lemma In_firstn {A : Type} (x : A) n l : In x (firstn n l) -> In x l.
Proof.
  intros H. rewrite <- (firstn_skipn n l). apply in_or_app. now left.
Qed.

Lemma NoDup_map_firstn {A B : Type} (f : A -> B) n l :
  NoDup (map f l) -> NoDup (map f (firstn n l)).
Proof.
  intros H. rewrite <- (firstn_skipn n l), map_app in H.
  apply NoDup_app in H. tauto.
Qed.

Section FirstOccurrencesFacts.
Context {A : Type} (key : A -> string) (eligible : string -> bool).

Lemma fold_left_first_occurrences
      (step : gset string * list A -> A -> gset string * list A) :
  (forall seen out x,
      step (seen, out) x =
      if bool_decide (key x ∉ seen) && eligible (key x)
      then ({[key x]} ∪ seen, out ++ [x]) else (seen, out)) ->
  forall l seen out,
    snd (fold_left step l (seen, out))
    = out ++ first_occurrences key eligible seen l.
Proof.
  intros Hstep l. induction l as [|x l IH]; intros seen out; simpl.
  - now rewrite app_nil_r.
  - rewrite Hstep. destruct (bool_decide (key x ∉ seen) && eligible (key x)).
    + rewrite IH, <- app_assoc. reflexivity.
    + apply IH.
Qed.

Lemma first_occurrences_In seen l x :
  In x (first_occurrences key eligible seen l) ->
  exists pre post,
    l = pre ++ x :: post /\ ~ In (key x) (map key pre)
    /\ (key x ∉ seen) /\ eligible (key x) = true.
Proof.
  revert seen. induction l as [|y l IH]; intros seen; simpl; [tauto|].
  destruct (bool_decide (key y ∉ seen)) eqn:Hd; simpl.
  - apply bool_decide_eq_true in Hd.
    destruct (eligible (key y)) eqn:He; simpl.
    + intros [->|Hin].
      * exists [], l. simpl. tauto.
      * destruct (IH _ Hin) as (pre & post & -> & Hpre & Hseen & Hel).
        exists (y :: pre), post. simpl. split; [reflexivity|].
        split; [|split; [set_solver|assumption]].
        intros [Heq|Hin']; [set_solver|tauto].
    + intros Hin.
      destruct (IH _ Hin) as (pre & post & -> & Hpre & Hseen & Hel).
      exists (y :: pre), post. simpl. split; [reflexivity|].
      split; [|tauto].
      intros [Heq|Hin']; [|tauto].
      congruence.
  - apply bool_decide_eq_false in Hd.
    intros Hin.
    destruct (IH _ Hin) as (pre & post & -> & Hpre & Hseen & Hel).
    exists (y :: pre), post. simpl. split; [reflexivity|].
    split; [|tauto].
    intros [Heq|Hin']; [|tauto].
    apply Hd. rewrite Heq. assumption.
Qed.

Lemma first_occurrences_complete seen pre x post :
  ~ In (key x) (map key pre) -> key x ∉ seen -> eligible (key x) = true ->
  In x (first_occurrences key eligible seen (pre ++ x :: post)).
Proof.
  revert seen. induction pre as [|y pre IH]; intros seen Hpre Hseen Hel; simpl.
  - rewrite bool_decide_eq_true_2, Hel by assumption. simpl. now left.
  - simpl in Hpre.
    destruct (bool_decide (key y ∉ seen) && eligible (key y)).
    + right. apply IH; [tauto| |assumption].
      apply not_elem_of_union. split; [|assumption].
      rewrite elem_of_singleton. intros Heq. apply Hpre. now left.
    + apply IH; tauto.
Qed.

Lemma first_occurrences_NoDup seen l :
  NoDup (map key (first_occurrences key eligible seen l)).
Proof.
  revert seen. induction l as [|y l IH]; intros seen; simpl; [constructor|].
  destruct (bool_decide (key y ∉ seen) && eligible (key y)); [|apply IH].
  simpl. apply NoDup_cons_2; [|apply IH].
  rewrite list_elem_of_In, in_map_iff. intros (z & Hz & Hin).
  apply first_occurrences_In in Hin as (_ & _ & _ & _ & Hseen & _).
  apply Hseen. rewrite Hz. set_solver.
Qed.

Lemma first_occurrences_sublist seen l :
  sublist (first_occurrences key eligible seen l) l.
Proof.
  revert seen. induction l as [|y l IH]; intros seen; simpl; [constructor|].
  destruct (bool_decide (key y ∉ seen) && eligible (key y)).
  - apply sublist_skip, IH.
  - apply sublist_cons, IH.
Qed.
End FirstOccurrencesFacts.

Lemma remove_duplicates_first_occurrences anime_list :
  remove_duplicates anime_list
  = first_occurrences title_key (fun k => Nat.ltb 2 (Py.len k)) ∅ anime_list.
Proof.
  unfold remove_duplicates.
  rewrite (fold_left_first_occurrences title_key (fun k => Nat.ltb 2 (Py.len k)));
    [reflexivity|].
  intros seen out x. reflexivity.
Qed.

(** C6: [remove_duplicates] returns a list without two records of the same
    key [title.lower().strip()]; every record kept has a key longer than 2
    and a record with a shorter key is never kept; the record kept for a
    key is its first occurrence in the input, every first occurrence with
    an eligible key is kept, and the input order is preserved. *)
Theorem remove_duplicates_first_wins (anime_list : list Anime) :
  NoDup (map title_key (remove_duplicates anime_list))
  /\ Forall (fun a => 2 < Py.len (title_key a)) (remove_duplicates anime_list)
  /\ (forall a, Py.len (title_key a) <= 2 -> ~ In a (remove_duplicates anime_list))
  /\ (forall a, In a (remove_duplicates anime_list) ->
        exists pre post, anime_list = pre ++ a :: post
                         /\ ~ In (title_key a) (map title_key pre))
  /\ (forall pre a post, anime_list = pre ++ a :: post ->
        ~ In (title_key a) (map title_key pre) ->
        2 < Py.len (title_key a) ->
        In a (remove_duplicates anime_list))
  /\ sublist (remove_duplicates anime_list) anime_list.
Proof.
  rewrite remove_duplicates_first_occurrences.
  assert (Hin : forall a,
             In a (first_occurrences title_key (fun k => Nat.ltb 2 (Py.len k)) ∅ anime_list) ->
             2 < Py.len (title_key a)).
  { intros a Ha. apply first_occurrences_In in Ha as (_ & _ & _ & _ & _ & Hel).
    now apply Nat.ltb_lt in Hel. }
  split; [apply first_occurrences_NoDup|].
  split; [apply List.Forall_forall; exact Hin|].
  split; [intros a Hle Ha; apply Hin in Ha; lia|].
  split.
  { intros a Ha. apply first_occurrences_In in Ha as (pre & post & -> & Hpre & _).
    now exists pre, post. }
  split; [|apply first_occurrences_sublist].
  intros pre a post -> Hpre Hlen.
  apply first_occurrences_complete; [assumption|set_solver|now apply Nat.ltb_lt].
Qed.

(** ** Download links *)

Lemma collect_download_links_filter links :
  collect_download_links links
  = map download_link_of
        (List.filter (fun link => is_download_href (get_href link)) links).
Proof.
  unfold collect_download_links.
  exact (fold_left_collect (fun link => is_download_href (get_href link))
                           download_link_of links []).
Qed.

Lemma extract_download_links_first_occurrences soup :
  extract_download_links soup
  = firstn 10
      (first_occurrences link_url (fun _ => true) ∅
         (map download_link_of
              (List.filter (fun link => is_download_href (get_href link))
                           (find_all_a_href soup)))).
Proof.
  unfold extract_download_links.
  rewrite (fold_left_first_occurrences link_url (fun _ => true)).
  - now rewrite collect_download_links_filter.
  - intros seen out x. simpl. now rewrite andb_true_r.
Qed.

Lemma find_all_a_href_In soup link :
  In link (find_all_a_href soup) ->
  In link (anchors soup) /\ tag_href link = Some (get_href link).
Proof.
  unfold find_all_a_href, get_href. rewrite filter_In.
  destruct (tag_href link); [tauto|]. intros [_ H]. discriminate.
Qed.

(** ** Categories *)

Lemma categorize_fold l data :
  fold_left categorize_step l data
  = {| ongoing := ongoing data ++ List.filter ongoing_rule l;
       completed := completed data ++ List.filter completed_rule l;
       movies := movies data ++ List.filter movie_rule l |}.
Proof.
  revert data. induction l as [|a l IH]; intros data; simpl.
  - rewrite !app_nil_r. now destruct data.
  - rewrite IH. unfold categorize_step, ongoing_rule, completed_rule.
    fold (movie_rule a) (sequel_rule a) (recency_rule a).
    destruct (movie_rule a), (sequel_rule a), (recency_rule a); simpl;
      rewrite <- ?app_assoc; reflexivity.
Qed.

Lemma categorize_anime_filters l :
  categorize_anime l
  = {| ongoing := List.filter ongoing_rule l;
       completed := List.filter completed_rule l;
       movies := List.filter movie_rule l |}.
Proof. unfold categorize_anime. now rewrite categorize_fold. Qed.

Lemma rules_exclusive a :
  (movie_rule a = true /\ ongoing_rule a = false /\ completed_rule a = false)
  \/ (movie_rule a = false /\ ongoing_rule a = true /\ completed_rule a = false)
  \/ (movie_rule a = false /\ ongoing_rule a = false /\ completed_rule a = true).
Proof.
  unfold ongoing_rule, completed_rule.
  destruct (movie_rule a), (sequel_rule a), (recency_rule a); simpl; tauto.
Qed.

Lemma count_occ_filter3 (p q r : Anime -> bool) l a :
  (forall x, (p x = true /\ q x = false /\ r x = false)
             \/ (p x = false /\ q x = true /\ r x = false)
             \/ (p x = false /\ q x = false /\ r x = true)) ->
  count_occ Anime_eq_dec (List.filter p l) a
  + count_occ Anime_eq_dec (List.filter q l) a
  + count_occ Anime_eq_dec (List.filter r l) a
  = count_occ Anime_eq_dec l a.
Proof.
  intros Hx. induction l as [|x l IH]; simpl; [reflexivity|].
  destruct (Hx x) as [(-> & -> & ->)|[(-> & -> & ->)|(-> & -> & ->)]];
    simpl; destruct (Anime_eq_dec x a); lia.
Qed.

(** C3, as the code has it: [categorize_anime] puts every input record in
    exactly one of the buckets ongoing, completed and movies, by the first
    rule that matches, and keeps the input order inside a bucket; a record
    whose lower-cased title contains "movie", or whose lower-cased url
    contains "movie" or "film", is put in movies whatever the sequel and
    recency rules say. *)
Theorem categorize_anime_first_match (anime_list : list Anime) :
  movies (categorize_anime anime_list) = List.filter movie_rule anime_list
  /\ ongoing (categorize_anime anime_list)
     = List.filter (fun a => negb (movie_rule a)
                             && (sequel_rule a || recency_rule a)) anime_list
  /\ completed (categorize_anime anime_list)
     = List.filter (fun a => negb (movie_rule a) && negb (sequel_rule a)
                             && negb (recency_rule a)) anime_list
  /\ (forall a,
        count_occ Anime_eq_dec (ongoing (categorize_anime anime_list)) a
        + count_occ Anime_eq_dec (completed (categorize_anime anime_list)) a
        + count_occ Anime_eq_dec (movies (categorize_anime anime_list)) a
        = count_occ Anime_eq_dec anime_list a)
  /\ (forall a,
        ~ (In a (movies (categorize_anime anime_list))
           /\ In a (ongoing (categorize_anime anime_list)))
        /\ ~ (In a (movies (categorize_anime anime_list))
              /\ In a (completed (categorize_anime anime_list)))
        /\ ~ (In a (ongoing (categorize_anime anime_list))
              /\ In a (completed (categorize_anime anime_list))))
  /\ (forall a, In a anime_list ->
        Py.contains "movie" (Py.lower (title a)) = true
        \/ Py.contains "movie" (Py.lower (url a)) = true
        \/ Py.contains "film" (Py.lower (url a)) = true ->
        In a (movies (categorize_anime anime_list))).
Proof.
  rewrite categorize_anime_filters. simpl.
  split; [reflexivity|]. split; [reflexivity|]. split; [reflexivity|].
  split; [|split].
  - intros a.
    rewrite <- (count_occ_filter3 movie_rule ongoing_rule completed_rule anime_list a)
      by apply rules_exclusive.
    lia.
  - intros a. rewrite !filter_In.
    destruct (rules_exclusive a) as [(? & ? & ?)|[(? & ? & ?)|(? & ? & ?)]];
      repeat split; intros [[_ ?] [_ ?]]; congruence.
  - intros a Hin Hrule. apply filter_In. split; [assumption|].
    unfold movie_rule.
    destruct Hrule as [->|[->| ->]]; rewrite ?orb_true_r; reflexivity.
Qed.

(** C3 as stated fails: a record whose title contains "film" (and whose
    url contains neither word) is put in completed, not in movies. *)
Lemma categorize_anime_film_title_not_movie :
  ~ (forall anime_list a, In a anime_list ->
       Py.contains "movie" (title a) = true \/ Py.contains "film" (title a) = true
       \/ Py.contains "movie" (url a) = true \/ Py.contains "film" (url a) = true ->
       In a (movies (categorize_anime anime_list))).
Proof.
  intros H.
  specialize (H [film_title_record] film_title_record (or_introl eq_refl)).
  vm_compute in H. apply H. right. left. reflexivity.
Qed.

Example categorize_film_title :
  categorize_anime [film_title_record]
  = {| ongoing := []; completed := [film_title_record]; movies := [] |}.
Proof. reflexivity. Qed.

(** ** Synopsis *)

Lemma length_append (s1 s2 : string) :
  String.length (s1 ++ s2)%string = String.length s1 + String.length s2.
Proof. induction s1 as [|c s1 IH]; simpl; [reflexivity|now rewrite IH]. Qed.

Lemma length_slice_to n s : String.length (Py.slice_to n s) = Nat.min n (String.length s).
Proof.
  revert s. induction n as [|n IH]; intros [|c s]; simpl; try reflexivity.
  now rewrite IH.
Qed.

Lemma extract_synopsis_ellipsize soup :
  extract_synopsis soup
  = ellipsize (Py.join " " (synopsis_loop soup synopsis_selectors [])).
Proof. reflexivity. Qed.

Lemma synopsis_add_fold elements synopsis_parts :
  fold_left synopsis_add elements synopsis_parts
  = synopsis_parts ++ map get_text_strip (List.filter qualifies elements).
Proof.
  exact (fold_left_collect qualifies get_text_strip elements synopsis_parts).
Qed.

Lemma synopsis_loop_skip soup pre rest synopsis_parts :
  Forall (fun selector => select soup selector = []) pre ->
  synopsis_loop soup (pre ++ rest) synopsis_parts
  = synopsis_loop soup rest synopsis_parts.
Proof.
  induction 1 as [|selector pre Hsel _ IH]; simpl; [reflexivity|].
  now rewrite Hsel.
Qed.

Lemma qualifies_long_clean p :
  30 < Py.len (get_text_strip p) ->
  Py.contains_any synopsis_stop_words (Py.lower (get_text_strip p)) = false ->
  qualifies p = true.
Proof.
  intros Hlen Hw. unfold qualifies. rewrite Hw.
  apply Nat.ltb_lt in Hlen. now rewrite Hlen.
Qed.

Lemma qualifies_short p : Py.len (get_text_strip p) <= 30 -> qualifies p = false.
Proof.
  intros Hlen. unfold qualifies. apply Nat.ltb_ge in Hlen. now rewrite Hlen.
Qed.

(** C1, as the code has it: when the first synopsis selector that returns
    elements yields 5 paragraphs of which only paragraphs 1, 3 and 4 are
    longer than 30 characters, and no paragraph contains a disallowed word,
    [extract_synopsis] looks at the first three paragraphs only and returns
    paragraphs 1 and 3 joined by one space (cut to 500 characters and an
    ellipsis when longer); paragraph 4 is not used. *)
Theorem extract_synopsis_first_three_elements
        (soup : BeautifulSoup) (pre post : list string) (selector : string)
        (p1 p2 p3 p4 p5 : Tag) :
  synopsis_selectors = pre ++ selector :: post ->
  Forall (fun earlier => select soup earlier = []) pre ->
  select soup selector = [p1; p2; p3; p4; p5] ->
  30 < Py.len (get_text_strip p1) ->
  Py.len (get_text_strip p2) <= 30 ->
  30 < Py.len (get_text_strip p3) ->
  30 < Py.len (get_text_strip p4) ->
  Py.len (get_text_strip p5) <= 30 ->
  Forall (fun p => Py.contains_any synopsis_stop_words
                                   (Py.lower (get_text_strip p)) = false)
         [p1; p2; p3; p4; p5] ->
  extract_synopsis soup
  = ellipsize (get_text_strip p1 ++ " " ++ get_text_strip p3)%string.
Proof.
  intros Hsel Hpre Hselect H1 H2 H3 H4 H5 Hwords.
  rewrite extract_synopsis_ellipsize, Hsel, synopsis_loop_skip by assumption.
  cbn [synopsis_loop]. rewrite Hselect. cbn [firstn].
  rewrite synopsis_add_fold. cbn [List.filter app].
  inversion_clear Hwords as [|? ? Hw1 Hwords'].
  inversion_clear Hwords' as [|? ? Hw2 Hwords''].
  inversion_clear Hwords'' as [|? ? Hw3 _].
  rewrite (qualifies_long_clean p1), (qualifies_short p2),
    (qualifies_long_clean p3) by assumption.
  reflexivity.
Qed.

Lemma extract_synopsis_first_three_elements_witness :
  extract_synopsis five_paragraph_page
  = "Naruto Uzumaki wants to become the Hokage. A fox spirit was sealed inside him at birth.".
Proof.
  refine (extract_synopsis_first_three_elements
            five_paragraph_page [] [".post-content p"; ".content p"; "p"]
            ".entry-content p" _ _ _ _ _ eq_refl _ eq_refl _ _ _ _ _ _).
  - constructor.
  - apply Nat.ltb_lt; reflexivity.
  - apply Nat.leb_le; reflexivity.
  - apply Nat.ltb_lt; reflexivity.
  - apply Nat.ltb_lt; reflexivity.
  - apply Nat.leb_le; reflexivity.
  - repeat constructor.
Defined.

(** C1 as stated fails: on a page with five paragraphs where paragraphs 1,
    3 and 4 qualify, the synopsis is not the join of paragraphs 1, 3
    and 4. *)
Lemma extract_synopsis_skips_fourth_paragraph :
  ~ (forall soup selector pre post p1 p2 p3 p4 p5,
        synopsis_selectors = pre ++ selector :: post ->
        Forall (fun earlier => select soup earlier = []) pre ->
        select soup selector = [p1; p2; p3; p4; p5] ->
        30 < Py.len (get_text_strip p1) ->
        Py.len (get_text_strip p2) <= 30 ->
        30 < Py.len (get_text_strip p3) ->
        30 < Py.len (get_text_strip p4) ->
        Py.len (get_text_strip p5) <= 30 ->
        Forall (fun p => Py.contains_any synopsis_stop_words
                                         (Py.lower (get_text_strip p)) = false)
               [p1; p2; p3; p4; p5] ->
        extract_synopsis soup
        = ellipsize (Py.join " " [get_text_strip p1; get_text_strip p3;
                                  get_text_strip p4])).
Proof.
  intros H.
  specialize (H five_paragraph_page ".entry-content p" []
                [".post-content p"; ".content p"; "p"] _ _ _ _ _
                eq_refl (List.Forall_nil _) eq_refl).
  specialize (H ltac:(apply Nat.ltb_lt; reflexivity)
                ltac:(apply Nat.leb_le; reflexivity)
                ltac:(apply Nat.ltb_lt; reflexivity)
                ltac:(apply Nat.ltb_lt; reflexivity)
                ltac:(apply Nat.leb_le; reflexivity)).
  assert (Hwords : Forall (fun p => Py.contains_any synopsis_stop_words
                                      (Py.lower (get_text_strip p)) = false)
                          five_paragraphs)
    by (repeat constructor).
  specialize (H Hwords). vm_compute in H. discriminate H.
Qed.

Example extract_synopsis_five_paragraphs :
  extract_synopsis five_paragraph_page
  = Py.join " " ["Naruto Uzumaki wants to become the Hokage.";
                 "A fox spirit was sealed inside him at birth."].
Proof. reflexivity. Qed.

Lemma ellipsize_long synopsis :
  500 < Py.len synopsis ->
  ellipsize synopsis = (Py.slice_to 500 synopsis ++ "...")%string
  /\ Py.len (ellipsize synopsis) = 503.
Proof.
  intros Hlen. unfold ellipsize.
  rewrite (proj2 (Nat.ltb_lt _ _) Hlen). split; [reflexivity|].
  unfold Py.len in *. rewrite length_append, length_slice_to.
  rewrite Nat.min_l by lia. reflexivity.
Qed.

Lemma ellipsize_short synopsis :
  Py.len synopsis <= 500 -> ellipsize synopsis = synopsis.
Proof.
  intros Hlen. unfold ellipsize. now rewrite (proj2 (Nat.ltb_ge _ _) Hlen).
Qed.

(** C4, as the code has it: the synopsis returned by [extract_synopsis] is
    at most 503 characters long; when the joined paragraphs are longer than
    500 characters the result is their first 500 characters followed by the
    three characters of the ellipsis, 503 characters in all; otherwise it is
    the joined paragraphs unchanged. *)
Theorem extract_synopsis_length (soup : BeautifulSoup) :
  Py.len (extract_synopsis soup) <= 503
  /\ (500 < Py.len (Py.join " " (synopsis_loop soup synopsis_selectors [])) ->
      extract_synopsis soup
      = (Py.slice_to 500 (Py.join " " (synopsis_loop soup synopsis_selectors []))
         ++ "...")%string
      /\ Py.len (extract_synopsis soup) = 503)
  /\ (Py.len (Py.join " " (synopsis_loop soup synopsis_selectors [])) <= 500 ->
      extract_synopsis soup
      = Py.join " " (synopsis_loop soup synopsis_selectors [])).
Proof.
  rewrite extract_synopsis_ellipsize.
  set (joined := Py.join " " (synopsis_loop soup synopsis_selectors [])).
  split; [|split].
  - destruct (Nat.lt_ge_cases 500 (Py.len joined)) as [Hlong|Hshort].
    + destruct (ellipsize_long joined Hlong) as [_ ->]. lia.
    + rewrite (ellipsize_short joined Hshort). lia.
  - apply ellipsize_long.
  - apply ellipsize_short.
Qed.

(** C4 as stated fails: a page with one paragraph of 501 characters has a
    synopsis of 503 characters. *)
Lemma extract_synopsis_longer_than_500 :
  ~ (forall soup, Py.len (extract_synopsis soup) <= 500).
Proof.
  intros H. specialize (H long_paragraph_page).
  apply Nat.leb_le in H. vm_compute in H. discriminate H.
Qed.

Example extract_synopsis_long_paragraph :
  extract_synopsis long_paragraph_page
  = (Py.repeat_char "a" 500 ++ "...")%string
  /\ Py.len (extract_synopsis long_paragraph_page) = 503.
Proof. split; vm_compute; reflexivity. Qed.

(** ** The fetcher *)

Section FetchingFacts.
Context {World : Type}.
Variable session_get : string -> World -> Outcome * World.

Lemma get_page_hit url self body :
  cache self !! url = Some body ->
  get_page session_get url true self = (Some body, self).
Proof. intros H. unfold get_page. now rewrite H. Qed.

Lemma get_page_miss url use_cache self :
  (use_cache = true -> cache self !! url = None) ->
  get_page session_get url use_cache self
  = let '(outcome, w) := session_get url (world self) in
    let log := transport_log self ++ [url] in
    match outcome with
    | RequestException =>
        (None, {| cache := cache self; world := w; transport_log := log |})
    | Response status_code text =>
        if raise_for_status status_code
        then (None, {| cache := cache self; world := w; transport_log := log |})
        else (Some text, {| cache := <[url := text]> (cache self); world := w;
                            transport_log := log |})
    end.
Proof.
  intros H. unfold get_page.
  destruct use_cache; [rewrite H|]; reflexivity.
Qed.

(** C2, as the code has it: a cache hit returns the cached body and
    issues no GET; when the first of two successive calls
    [get_page(url, use_cache=True)] returns a body, the second call
    returns the same body from the cache and the two calls issue at most
    one GET in total; when the first call fails nothing is cached and
    the two calls issue two GETs. *)
Theorem get_page_twice (url : string) (self : Scraper World) :
  (forall body, cache self !! url = Some body ->
     get_page session_get url true self = (Some body, self))
  /\ (forall body self1,
        get_page session_get url true self = (Some body, self1) ->
        get_page session_get url true self1 = (Some body, self1)
        /\ (transport_log self1 = transport_log self
             \/ transport_log self1 = transport_log self ++ [url]))
  /\ (forall self1,
        get_page session_get url true self = (None, self1) ->
        cache self1 = cache self
        /\ transport_log (snd (get_page session_get url true self1))
           = transport_log self ++ [url; url]).
Proof.
  split; [apply get_page_hit|]. split.
  - intros body self1.
    destruct (cache self !! url) as [cached|] eqn:Hc.
    + rewrite (get_page_hit _ _ _ Hc). intros [= <- <-].
      split; [now apply get_page_hit|now left].
    + rewrite get_page_miss by (intros _; assumption).
      destruct (session_get url (world self)) as [[|status_code text] w];
        [discriminate|].
      destruct (raise_for_status status_code); [discriminate|].
      intros [= <- <-]. split; [|now right].
      apply get_page_hit. simpl. apply lookup_insert_eq.
  - intros self1.
    destruct (cache self !! url) as [cached|] eqn:Hc.
    + rewrite (get_page_hit _ _ _ Hc). discriminate.
    + rewrite get_page_miss by (intros _; assumption).
      assert (Hfail : forall w,
                 let s1 := {| cache := cache self; world := w;
                              transport_log := transport_log self ++ [url] |} in
                 cache s1 = cache self
                 /\ transport_log (snd (get_page session_get url true s1))
                    = transport_log self ++ [url; url]).
      { intros w s1. split; [reflexivity|].
        rewrite get_page_miss by (intros _; assumption).
        destruct (session_get url (world s1)) as [[|status_code text] w'];
          [|destruct (raise_for_status status_code)];
          simpl; now rewrite <- app_assoc. }
      destruct (session_get url (world self)) as [[|status_code text] w].
      * intros [= <-]. apply Hfail.
      * destruct (raise_for_status status_code); [|discriminate].
        intros [= <-]. apply Hfail.
Qed.

(** C9, as the code has it: when the GET raises a [RequestException] or
    returns a status from 400 to 599, [get_page] returns [None] and the
    cache is the one it was before the call. *)
Theorem get_page_failure_not_cached
        (url : string) (use_cache : bool) (self : Scraper World) (w : World) :
  (use_cache = true -> cache self !! url = None) ->
  (session_get url (world self) = (RequestException, w)
   \/ exists status_code text,
        session_get url (world self) = (Response status_code text, w)
        /\ 400 <= status_code < 600) ->
  fst (get_page session_get url use_cache self) = None
  /\ cache (snd (get_page session_get url use_cache self)) = cache self.
Proof.
  intros Hmiss Hfail. rewrite get_page_miss by assumption.
  destruct Hfail as [->|(status_code & text & -> & Hlo & Hhi)].
  - split; reflexivity.
  - unfold raise_for_status.
    rewrite (proj2 (Nat.leb_le _ _) Hlo), (proj2 (Nat.ltb_lt _ _) Hhi).
    split; reflexivity.
Qed.
End FetchingFacts.

Lemma get_page_failure_not_cached_witness :
  fst (get_page network_down base_url true (new_scraper tt)) = None
  /\ cache (snd (get_page network_down base_url true (new_scraper tt))) = ∅.
Proof.
  apply (get_page_failure_not_cached network_down base_url true (new_scraper tt) tt).
  - intros _. apply lookup_empty.
  - left. reflexivity.
Defined.

(** C2 as stated fails: when the network is down, two successive calls
    for the same url issue two GETs. *)
Lemma get_page_failing_requests_again :
  ~ (forall (World : Type) (session_get : string -> World -> Outcome * World)
            (url : string) (self : Scraper World),
        length (transport_log
                  (snd (get_page session_get url true
                          (snd (get_page session_get url true self)))))
        <= length (transport_log self) + 1).
Proof.
  intros H. specialize (H unit network_down base_url (new_scraper tt)).
  rewrite !get_page_miss in H by (intros _; apply lookup_empty).
  simpl in H. lia.
Qed.

Example get_page_twice_example :
  fst (get_page list_page_server base_url true
         (snd (get_page list_page_server base_url true (new_scraper 0))))
  = Some list_page_html
  /\ transport_log
       (snd (get_page list_page_server base_url true
               (snd (get_page list_page_server base_url true (new_scraper 0)))))
     = [base_url].
Proof. split; vm_compute; reflexivity. Qed.

Example get_page_network_down :
  transport_log
    (snd (get_page network_down base_url true
            (snd (get_page network_down base_url true (new_scraper tt)))))
  = [base_url; base_url].
Proof.
  rewrite !get_page_miss by (intros _; apply lookup_empty). reflexivity.
Qed.

(** C9 as stated fails: a response with status 304, which is not a 2xx
    status, is returned and cached. *)
Lemma get_page_caches_not_modified :
  ~ (forall (World : Type) (session_get : string -> World -> Outcome * World)
            (url : string) (use_cache : bool) (self : Scraper World)
            (w : World) (status_code : nat) (text : string),
        (use_cache = true -> cache self !! url = None) ->
        session_get url (world self) = (Response status_code text, w) ->
        ~ (200 <= status_code < 300) ->
        fst (get_page session_get url use_cache self) = None
        /\ cache (snd (get_page session_get url use_cache self)) = cache self).
Proof.
  intros H.
  specialize (H unit not_modified_server base_url true (new_scraper tt) tt
                304 "" (fun _ => lookup_empty _) eq_refl
                ltac:(lia)).
  rewrite get_page_miss in H by (intros _; apply lookup_empty).
  destruct H as [H _]. discriminate H.
Qed.

Example get_page_not_modified :
  fst (get_page not_modified_server base_url true (new_scraper tt))
  = Some ""
  /\ cache (snd (get_page not_modified_server base_url true (new_scraper tt)))
       !! base_url = Some "".
Proof.
  rewrite get_page_miss by (intros _; apply lookup_empty). simpl.
  split; [reflexivity|apply lookup_insert_eq].
Qed.

(** ** Sorting *)

Section ListSortFacts.
Context {A K : Type} (key : A -> K) (leb : K -> K -> bool).

Let key_le (a b : A) : Prop := leb (key a) (key b) = true.

Lemma insert_by_Permutation x l : Permutation (insert_by key leb x l) (x :: l).
Proof.
  induction l as [|y l IH]; simpl; [reflexivity|].
  destruct (leb (key x) (key y)); [reflexivity|].
  rewrite IH. apply perm_swap.
Qed.

Lemma sort_by_Permutation l : Permutation (sort_by key leb l) l.
Proof.
  induction l as [|x l IH]; simpl; [reflexivity|].
  rewrite insert_by_Permutation. now apply perm_skip.
Qed.

Lemma insert_by_Forall (P : A -> Prop) x l :
  P x -> Forall P l -> Forall P (insert_by key leb x l).
Proof.
  intros Hx Hl. induction Hl as [|y l Hy Hl IH]; simpl.
  - now constructor.
  - destruct (leb (key x) (key y)); repeat constructor; assumption.
Qed.

(** Equal keys keep their order: the records of a class of records with
    equivalent keys come out in the order they went in. *)
Lemma insert_by_stable (same : A -> bool) x l :
  (forall a b, same a = true -> same b = true -> leb (key a) (key b) = true) ->
  List.filter same (insert_by key leb x l) = List.filter same (x :: l).
Proof.
  intros Hsame. induction l as [|y l IH]; [reflexivity|].
  cbn [insert_by]. destruct (leb (key x) (key y)) eqn:Hxy; [reflexivity|].
  cbn [List.filter] in *. rewrite IH.
  destruct (same x) eqn:Hx, (same y) eqn:Hy; try reflexivity.
  rewrite (Hsame x y Hx Hy) in Hxy. discriminate.
Qed.

Lemma sort_by_stable (same : A -> bool) l :
  (forall a b, same a = true -> same b = true -> leb (key a) (key b) = true) ->
  List.filter same (sort_by key leb l) = List.filter same l.
Proof.
  intros Hsame. induction l as [|x l IH]; [reflexivity|].
  cbn [sort_by]. rewrite insert_by_stable by assumption.
  cbn [List.filter]. now rewrite IH.
Qed.

Hypothesis leb_total : forall k1 k2, leb k1 k2 = true \/ leb k2 k1 = true.
Hypothesis leb_trans :
  forall k1 k2 k3, leb k1 k2 = true -> leb k2 k3 = true -> leb k1 k3 = true.

Lemma insert_by_sorted x l :
  StronglySorted key_le l -> StronglySorted key_le (insert_by key leb x l).
Proof.
  induction 1 as [|y l Hl IH Hy]; simpl.
  - repeat constructor.
  - destruct (leb (key x) (key y)) eqn:Hxy.
    + constructor; [now constructor|].
      constructor; [exact Hxy|].
      eapply List.Forall_impl; [|exact Hy].
      intros z Hz. exact (leb_trans _ _ _ Hxy Hz).
    + constructor; [exact IH|].
      apply insert_by_Forall; [|exact Hy].
      unfold key_le. destruct (leb_total (key x) (key y)); congruence.
Qed.

Lemma sort_by_sorted l : StronglySorted key_le (sort_by key leb l).
Proof.
  induction l as [|x l IH]; simpl; [constructor|].
  now apply insert_by_sorted.
Qed.
End ListSortFacts.

Lemma str_leb_total s1 s2 : Py.str_leb s1 s2 = true \/ Py.str_leb s2 s1 = true.
Proof.
  revert s2. induction s1 as [|c1 s1 IH]; intros [|c2 s2]; simpl; try tauto.
  destruct (Nat.ltb_spec (nat_of_ascii c1) (nat_of_ascii c2));
    destruct (Nat.ltb_spec (nat_of_ascii c2) (nat_of_ascii c1));
    try tauto; try lia. apply IH.
Qed.

Lemma str_leb_trans s1 s2 s3 :
  Py.str_leb s1 s2 = true -> Py.str_leb s2 s3 = true -> Py.str_leb s1 s3 = true.
Proof.
  revert s2 s3.
  induction s1 as [|c1 s1 IH]; intros [|c2 s2] [|c3 s3]; simpl;
    try reflexivity; try discriminate.
  destruct (Nat.ltb_spec (nat_of_ascii c1) (nat_of_ascii c2));
    destruct (Nat.ltb_spec (nat_of_ascii c2) (nat_of_ascii c1));
    destruct (Nat.ltb_spec (nat_of_ascii c2) (nat_of_ascii c3));
    destruct (Nat.ltb_spec (nat_of_ascii c3) (nat_of_ascii c2));
    destruct (Nat.ltb_spec (nat_of_ascii c1) (nat_of_ascii c3));
    destruct (Nat.ltb_spec (nat_of_ascii c3) (nat_of_ascii c1));
    try reflexivity; try discriminate; try lia.
  apply IH.
Qed.

Lemma tuple_leb_total k1 k2 : tuple_leb k1 k2 = true \/ tuple_leb k2 k1 = true.
Proof.
  destruct k1 as [[|] n1], k2 as [[|] n2]; unfold tuple_leb; simpl;
    rewrite ?Nat.leb_le; try tauto; lia.
Qed.

Lemma tuple_leb_trans k1 k2 k3 :
  tuple_leb k1 k2 = true -> tuple_leb k2 k3 = true -> tuple_leb k1 k3 = true.
Proof.
  destruct k1 as [[|] n1], k2 as [[|] n2], k3 as [[|] n3]; unfold tuple_leb; simpl;
    rewrite ?Nat.leb_le; try discriminate; try reflexivity; lia.
Qed.

(** ** The anime list and the search *)

Lemma search_results_blank all_anime query :
  Py.strip (Py.lower query) = "" -> search_results all_anime query = [].
Proof. intros H. unfold search_results. now rewrite H. Qed.

Lemma search_results_sort all_anime query :
  Py.strip (Py.lower query) <> "" ->
  search_results all_anime query
  = firstn 25
      (sort_by (search_key (Py.strip (Py.lower query))) tuple_leb
         (List.filter
            (fun anime => Py.contains (Py.strip (Py.lower query))
                                      (Py.lower (title anime)))
            all_anime)).
Proof.
  intros H. unfold search_results, Py.truthy.
  destruct (String.eqb_spec (Py.strip (Py.lower query)) ""); [contradiction|].
  cbn [negb].
  rewrite (fold_left_collect
             (fun anime => Py.contains (Py.strip (Py.lower query))
                                       (Py.lower (title anime)))
             (fun anime => anime)).
  now rewrite map_id.
Qed.

Lemma extract_anime_links_fold links anime_list :
  fold_left extract_anime_links_step links anime_list
  = anime_list ++ map anime_of_link (List.filter is_anime_link links).
Proof.
  revert anime_list. induction links as [|link links IH]; intros anime_list.
  - cbn. now rewrite app_nil_r.
  - cbn [fold_left List.filter]. rewrite IH.
    unfold extract_anime_links_step, is_anime_link.
    destruct (_ && _ && _ && _ && _); cbn [andb]; [|reflexivity].
    destruct (_ && _); cbn [map]; [now rewrite <- app_assoc|reflexivity].
Qed.

Lemma extract_anime_links_filter soup :
  extract_anime_links soup
  = map anime_of_link (List.filter is_anime_link (find_all_a_href soup)).
Proof. unfold extract_anime_links. now rewrite extract_anime_links_fold. Qed.

Section ScrapingFacts.
Context {World : Type}.
Variable session_get : string -> World -> Outcome * World.
Variable html_parser : string -> BeautifulSoup.

(** C10: whatever the page fetched and whatever the letter filter, the
    list returned by [scrape_anime_list] is sorted in non-decreasing
    order of [title.lower()]; when a page is fetched it holds the records
    extracted, deduplicated and filtered, in another order; the link
    extractor itself keeps the order of the anchors in the document. *)
Theorem scrape_anime_list_sorted (letter : option string) (self : Scraper World) :
  StronglySorted
    (fun a b => Py.str_leb (Py.lower (title a)) (Py.lower (title b)) = true)
    (fst (scrape_anime_list session_get html_parser letter self))
  /\ (forall html self1,
        get_page session_get (base_url ++ "/anime-list-baru")%string true self
        = (Some html, self1) ->
        html <> "" ->
        Permutation
          (fst (scrape_anime_list session_get html_parser letter self))
          (letter_filter letter
             (remove_duplicates (extract_anime_links (html_parser html)))))
  /\ (forall soup,
        extract_anime_links soup
        = map anime_of_link (List.filter is_anime_link (find_all_a_href soup))).
Proof.
  split; [|split].
  - unfold scrape_anime_list.
    destruct (get_page session_get _ true self) as [[[|c html]|] self1];
      simpl; try constructor.
    apply sort_by_sorted; [apply str_leb_total|apply str_leb_trans].
  - intros html self1 Hget Hhtml. unfold scrape_anime_list. rewrite Hget.
    destruct html as [|c html]; [contradiction|].
    cbn [fst]. rewrite sort_by_Permutation.
    destruct letter as [[|c' letter]|]; reflexivity.
  - apply extract_anime_links_filter.
Qed.

(** C5, as the code has it: [search_anime] fetches the anime list and
    searches it for the query lower-cased and stripped; a blank query
    gives the empty list; otherwise the result is the first 25 of the
    records whose lower-cased title contains that query, in the stable
    order of the key (title does not start with the query, length of the
    title); for the query "naruto" over the titles "Naruto Shippuden",
    "Boruto: Naruto Next", "Naruto" the order is "Naruto",
    "Naruto Shippuden", "Boruto: Naruto Next". *)
Theorem search_anime_ranked (query : string) (self : Scraper World) :
  fst (search_anime session_get html_parser query self)
  = search_results
      (fst (scrape_anime_list session_get html_parser None self)) query
  /\ (forall all_anime,
        Py.strip (Py.lower query) = "" -> search_results all_anime query = [])
  /\ (forall all_anime,
        Py.strip (Py.lower query) <> "" ->
        exists ranked,
          search_results all_anime query = firstn 25 ranked
          /\ Permutation ranked
               (List.filter
                  (fun anime => Py.contains (Py.strip (Py.lower query))
                                            (Py.lower (title anime)))
                  all_anime)
          /\ StronglySorted
               (fun a b => tuple_leb (search_key (Py.strip (Py.lower query)) a)
                                     (search_key (Py.strip (Py.lower query)) b)
                           = true)
               ranked
          /\ (forall k,
                List.filter
                  (fun a => bool_decide (search_key (Py.strip (Py.lower query)) a = k))
                  ranked
                = List.filter
                    (fun a => bool_decide (search_key (Py.strip (Py.lower query)) a = k))
                    (List.filter
                       (fun anime => Py.contains (Py.strip (Py.lower query))
                                                 (Py.lower (title anime)))
                       all_anime)))
  /\ (forall u1 u2 u3,
        search_results
          [{| title := "Naruto Shippuden"; url := u1 |};
           {| title := "Boruto: Naruto Next"; url := u2 |};
           {| title := "Naruto"; url := u3 |}] "naruto"
        = [{| title := "Naruto"; url := u3 |};
           {| title := "Naruto Shippuden"; url := u1 |};
           {| title := "Boruto: Naruto Next"; url := u2 |}]).
Proof.
  split; [|split; [|split]].
  - unfold search_anime.
    now destruct (scrape_anime_list session_get html_parser None self).
  - intros all_anime. apply search_results_blank.
  - intros all_anime Hq. eexists. split; [now apply search_results_sort|].
    split; [apply sort_by_Permutation|]. split.
    + apply (sort_by_sorted (search_key (Py.strip (Py.lower query))) tuple_leb);
        [apply tuple_leb_total|apply tuple_leb_trans].
    + intros k. apply sort_by_stable. intros a b Ha Hb.
      apply bool_decide_eq_true in Ha, Hb. rewrite Ha, Hb.
      destruct (tuple_leb_total k k); assumption.
  - intros u1 u2 u3. reflexivity.
Qed.
End ScrapingFacts.

(** C5 as stated fails: for the query of one space, the title
    "Naruto Shippuden" contains the query and the result is empty. *)
Lemma search_results_blank_query :
  ~ (forall all_anime query a,
        length all_anime <= 25 ->
        In a all_anime ->
        Py.contains (Py.lower query) (Py.lower (title a)) = true ->
        In a (search_results all_anime query)).
Proof.
  intros H.
  specialize (H [{| title := "Naruto"; url := "https://meownime.ltd/naruto-sub-indo/" |}]
                "" _ ltac:(simpl; lia) (or_introl eq_refl) eq_refl).
  exact H.
Qed.

Example search_results_one_space :
  search_results
    [{| title := "Naruto Shippuden";
        url := "https://meownime.ltd/naruto-shippuden-sub-indo/" |}] " "
  = [].
Proof. reflexivity. Qed.

(** ** The title cleaner *)

Lemma clean_title_steps title :
  clean_title title
  = if Nat.ltb 2 (Py.len (collapse_spaces (remove_patterns (Py.strip title))))
    then collapse_spaces (remove_patterns (Py.strip title))
    else Py.strip title.
Proof. reflexivity. Qed.

Lemma contains_empty s : Py.contains "" s = true.
Proof. destruct s; reflexivity. Qed.

Lemma replace_absent old s : Py.contains old s = false -> Py.replace old "" s = s.
Proof.
  destruct old as [|c old]; [now rewrite contains_empty|].
  unfold Py.replace. generalize (String c old). clear c old. intros old.
  induction s as [|c s IH]; [reflexivity|].
  cbn [Py.contains Py.replace_from].
  destruct (String.prefix old (String c s)); [discriminate|].
  cbn [orb]. intros H. now rewrite IH.
Qed.

Lemma remove_patterns_clean s : pattern_free s = true -> remove_patterns s = s.
Proof.
  unfold pattern_free, remove_patterns.
  induction unwanted_patterns as [|p ps IH]; [reflexivity|].
  cbn [forallb fold_left]. intros H.
  apply andb_true_iff in H as [H Hps].
  apply andb_true_iff in H as [H1 H2].
  apply negb_true_iff in H1, H2.
  rewrite (replace_absent p s H1), (replace_absent _ s H2). now apply IH.
Qed.

Lemma rstrip_cons_word c s :
  Py.isspace c = false -> Py.rstrip (String c s) = String c (Py.rstrip s).
Proof. intros Hc. cbn [Py.rstrip]. rewrite Hc. now destruct (Py.rstrip s). Qed.

Lemma rstrip_cons_nonempty c s :
  Py.rstrip s <> "" -> Py.rstrip (String c s) = String c (Py.rstrip s).
Proof. intros Hs. cbn [Py.rstrip]. now destruct (Py.rstrip s). Qed.

Lemma rstrip_idempotent s : Py.rstrip (Py.rstrip s) = Py.rstrip s.
Proof.
  induction s as [|c s IH]; [reflexivity|].
  cbn [Py.rstrip]. destruct (Py.rstrip s) as [|c' r] eqn:Hr.
  - destruct (Py.isspace c) eqn:Hc; [reflexivity|].
    cbn [Py.rstrip]. now rewrite Hc.
  - rewrite rstrip_cons_nonempty; rewrite IH; [reflexivity|discriminate].
Qed.

Lemma lstrip_starts_word s : Py.lstrip s = "" \/ Py.starts_word (Py.lstrip s) = true.
Proof.
  induction s as [|c s IH]; [now left|].
  cbn [Py.lstrip]. destruct (Py.isspace c) eqn:Hc; [exact IH|].
  right. cbn [Py.starts_word]. now rewrite Hc.
Qed.

Lemma lstrip_word s : s = "" \/ Py.starts_word s = true -> Py.lstrip s = s.
Proof.
  intros [->|H]; [reflexivity|].
  destruct s as [|c s]; [discriminate|].
  cbn [Py.starts_word] in H. apply negb_true_iff in H.
  cbn [Py.lstrip]. now rewrite H.
Qed.

Lemma rstrip_starts_word s :
  s = "" \/ Py.starts_word s = true ->
  Py.rstrip s = "" \/ Py.starts_word (Py.rstrip s) = true.
Proof.
  intros [->|H]; [now left|].
  destruct s as [|c s]; [discriminate|].
  cbn [Py.starts_word] in H. apply negb_true_iff in H.
  right. rewrite rstrip_cons_word by assumption.
  cbn [Py.starts_word]. now rewrite H.
Qed.

Lemma strip_idempotent s : Py.strip (Py.strip s) = Py.strip s.
Proof.
  unfold Py.strip.
  rewrite (lstrip_word (Py.rstrip (Py.lstrip s)))
    by apply rstrip_starts_word, lstrip_starts_word.
  apply rstrip_idempotent.
Qed.

Lemma is_word_cons c w :
  Py.isspace c = false -> no_space w = true -> is_word (String c w) = true.
Proof. intros Hc Hw. unfold is_word. cbn. now rewrite Hc, Hw. Qed.

Lemma split_words s : Forall (fun w => is_word w = true) (Py.split s).
Proof.
  induction s as [|c s IH]; [constructor|].
  cbn [Py.split]. destruct (Py.isspace c) eqn:Hc; [exact IH|].
  destruct (Py.starts_word s).
  - destruct (Py.split s) as [|w ws].
    + repeat constructor. now apply is_word_cons.
    + inversion_clear IH as [|? ? Hw Hws]. constructor; [|exact Hws].
      apply andb_true_iff in Hw as [_ Hw]. now apply is_word_cons.
  - constructor; [|exact IH]. now apply is_word_cons.
Qed.

Lemma append_cons c s rest : (String c s ++ rest)%string = String c (s ++ rest)%string.
Proof. reflexivity. Qed.

Lemma split_word_app w rest :
  is_word w = true -> Py.starts_word rest = false ->
  Py.split (w ++ rest)%string = w :: Py.split rest.
Proof.
  intros Hw Hrest. destruct w as [|c w]; [discriminate|].
  apply andb_true_iff in Hw as [_ Hw].
  revert c Hw. induction w as [|c' w IH]; intros c Hw;
    cbn [no_space] in Hw; apply andb_true_iff in Hw as [Hc Hw];
    apply negb_true_iff in Hc.
  - change (String c "" ++ rest)%string with (String c rest).
    cbn [Py.split]. now rewrite Hc, Hrest.
  - change (String c (String c' w) ++ rest)%string
      with (String c (String c' w ++ rest)%string).
    cbn [Py.split]. rewrite Hc.
    assert (Hc' : Py.isspace c' = false).
    { cbn [no_space] in Hw. apply andb_true_iff in Hw as [Hc' _].
      now apply negb_true_iff in Hc'. }
    replace (Py.starts_word (String c' w ++ rest)%string) with true
      by (rewrite append_cons; cbn [Py.starts_word]; now rewrite Hc').
    now rewrite (IH c' Hw).
Qed.

Lemma append_empty_r s : (s ++ "")%string = s.
Proof. induction s as [|c s IH]; [reflexivity|]. now rewrite append_cons, IH. Qed.

Lemma join_cons sep w w' ws :
  Py.join sep (w :: w' :: ws) = (w ++ sep ++ Py.join sep (w' :: ws))%string.
Proof. reflexivity. Qed.

Lemma split_join ws :
  Forall (fun w => is_word w = true) ws -> Py.split (Py.join " " ws) = ws.
Proof.
  induction 1 as [|w ws Hw Hws IH]; [reflexivity|].
  destruct ws as [|w' ws].
  - change (Py.join " " [w]) with w.
    rewrite <- (append_empty_r w) at 1. now rewrite split_word_app.
  - rewrite join_cons, split_word_app by (assumption || reflexivity).
    change (Py.split (" " ++ Py.join " " (w' :: ws))%string)
      with (Py.split (Py.join " " (w' :: ws))).
    now rewrite IH.
Qed.

Lemma collapse_spaces_idempotent s :
  collapse_spaces (collapse_spaces s) = collapse_spaces s.
Proof.
  unfold collapse_spaces. now rewrite split_join by apply split_words.
Qed.

Lemma rstrip_word_app w rest :
  no_space w = true -> Py.rstrip (w ++ rest)%string = (w ++ Py.rstrip rest)%string.
Proof.
  induction w as [|c w IH]; intros Hw; [reflexivity|].
  cbn [no_space] in Hw. apply andb_true_iff in Hw as [Hc Hw].
  apply negb_true_iff in Hc.
  rewrite append_cons, rstrip_cons_word by assumption.
  now rewrite IH.
Qed.

Lemma join_words_nonempty w ws :
  is_word w = true -> Py.join " " (w :: ws) <> "".
Proof.
  intros Hw. destruct w as [|c w]; [discriminate|].
  destruct ws; [discriminate|]. rewrite join_cons. discriminate.
Qed.

Lemma rstrip_join ws :
  Forall (fun w => is_word w = true) ws ->
  Py.rstrip (Py.join " " ws) = Py.join " " ws.
Proof.
  induction 1 as [|w ws Hw Hws IH]; [reflexivity|].
  pose proof Hw as Hns. apply andb_true_iff in Hns as [_ Hns].
  destruct ws as [|w' ws].
  - change (Py.join " " [w]) with w.
    rewrite <- (append_empty_r w) at 1.
    rewrite rstrip_word_app by assumption. apply append_empty_r.
  - rewrite join_cons, rstrip_word_app by assumption.
    change (" " ++ Py.join " " (w' :: ws))%string
      with (String " " (Py.join " " (w' :: ws))).
    rewrite rstrip_cons_nonempty; rewrite IH; [reflexivity|].
    inversion_clear Hws. now apply join_words_nonempty.
Qed.

Lemma strip_collapse_spaces s : Py.strip (collapse_spaces s) = collapse_spaces s.
Proof.
  unfold collapse_spaces, Py.strip.
  pose proof (split_words s) as Hws.
  rewrite lstrip_word; [now apply rstrip_join|].
  destruct Hws as [|w ws Hw Hws]; [now left|]. right.
  destruct w as [|c w]; [discriminate|].
  apply andb_true_iff in Hw as [_ Hw]. cbn [no_space] in Hw.
  apply andb_true_iff in Hw as [Hc _].
  destruct ws; [exact Hc|]. rewrite join_cons. exact Hc.
Qed.

(** C7, as the code has it: the cleaner is idempotent on already-clean
    titles: for every title t whose cleaned form [clean_title(t)] contains
    none of the unwanted patterns (as listed or lower-cased),
    [clean_title(clean_title(t)) == clean_title(t)]. *)
Theorem clean_title_idempotent_on_clean (t : string) :
  pattern_free (clean_title t) = true ->
  clean_title (clean_title t) = clean_title t.
Proof.
  intros Hclean. rewrite (clean_title_steps (clean_title t)).
  rewrite (remove_patterns_clean (Py.strip (clean_title t))).
  - revert Hclean. rewrite (clean_title_steps t).
    destruct (Nat.ltb 2 (Py.len (collapse_spaces (remove_patterns (Py.strip t)))))
      eqn:Hlen; intros Hclean.
    + rewrite strip_collapse_spaces, collapse_spaces_idempotent. now rewrite Hlen.
    + rewrite strip_idempotent.
      rewrite (remove_patterns_clean _ Hclean) in Hlen. now rewrite Hlen.
  - revert Hclean. rewrite (clean_title_steps t).
    destruct (Nat.ltb 2 (Py.len (collapse_spaces (remove_patterns (Py.strip t))))).
    + now rewrite strip_collapse_spaces.
    + now rewrite strip_idempotent.
Qed.

Lemma clean_title_idempotent_on_clean_witness :
  pattern_free (clean_title "Naruto Shippuden Subtitle Indonesia Batch") = true
  /\ clean_title (clean_title "Naruto Shippuden Subtitle Indonesia Batch")
     = clean_title "Naruto Shippuden Subtitle Indonesia Batch".
Proof.
  split; [reflexivity|].
  apply (clean_title_idempotent_on_clean "Naruto Shippuden Subtitle Indonesia Batch").
  reflexivity.
Defined.

(** C7 as stated fails: cleaning "Naruto Sub Batch Indo" removes "Batch"
    and leaves "Naruto Sub Indo", which a second cleaning turns into
    "Naruto". *)
Lemma clean_title_not_idempotent :
  ~ (forall t, clean_title (clean_title t) = clean_title t).
Proof.
  intros H. specialize (H "Naruto Sub Batch Indo").
  vm_compute in H. discriminate H.
Qed.

Example clean_title_twice :
  clean_title "Naruto Sub Batch Indo" = "Naruto Sub Indo"
  /\ clean_title "Naruto Sub Indo" = "Naruto".
Proof. split; reflexivity. Qed.

(** ** The list page, end to end *)

Example scrape_anime_list_example :
  fst (scrape_anime_list list_page_server list_page_parser None (new_scraper 0))
  = [{| title := "Boruto: Naruto Next";
        url := "https://meownime.ltd/boruto-subtitle-indonesia/" |};
     {| title := "Naruto"; url := "https://meownime.ltd/naruto-sub-indo/" |};
     {| title := "Naruto Shippuden";
        url := "https://meownime.ltd/naruto-shippuden-sub-indo/" |}].
Proof. vm_compute. reflexivity. Qed.

Example scrape_anime_list_letter_example :
  fst (scrape_anime_list list_page_server list_page_parser (Some "N")
                         (new_scraper 0))
  = [{| title := "Naruto"; url := "https://meownime.ltd/naruto-sub-indo/" |};
     {| title := "Naruto Shippuden";
        url := "https://meownime.ltd/naruto-shippuden-sub-indo/" |}].
Proof. vm_compute. reflexivity. Qed.

Example search_anime_example :
  fst (search_anime list_page_server list_page_parser " Naruto "
                    (new_scraper 0))
  = [{| title := "Naruto"; url := "https://meownime.ltd/naruto-sub-indo/" |};
     {| title := "Naruto Shippuden";
        url := "https://meownime.ltd/naruto-shippuden-sub-indo/" |};
     {| title := "Boruto: Naruto Next";
        url := "https://meownime.ltd/boruto-subtitle-indonesia/" |}].
Proof. vm_compute. reflexivity. Qed.

Example search_anime_twice_one_request :
  transport_log
    (snd (search_anime list_page_server list_page_parser "boruto"
            (snd (search_anime list_page_server list_page_parser "naruto"
                    (new_scraper 0)))))
  = ["https://meownime.ltd/anime-list-baru"].
Proof. vm_compute. reflexivity. Qed.

(** * Further properties of the code *)

(** ** The cache and the transport *)

Section CacheFacts.
Context {World : Type}.
Variable session_get : string -> World -> Outcome * World.

(** X1: [get_page] never removes a cache entry and never touches the entry
    of another url; with [use_cache=True] every entry present before the
    call is still there with the same body. *)
Theorem get_page_cache_grows
        (url : string) (use_cache : bool) (self : Scraper World) :
  (forall other, other <> url ->
     cache (snd (get_page session_get url use_cache self)) !! other
     = cache self !! other)
  /\ (forall k, is_Some (cache self !! k) ->
        is_Some (cache (snd (get_page session_get url use_cache self)) !! k))
  /\ (use_cache = true ->
      forall k body, cache self !! k = Some body ->
        cache (snd (get_page session_get url use_cache self)) !! k = Some body).
Proof.
  unfold get_page.
  destruct (if use_cache then cache self !! url else None) as [hit|] eqn:Hhit.
  { repeat split; auto. }
  destruct (session_get url (world self)) as [[|status_code text] w];
    [|destruct (raise_for_status status_code)]; cbn [snd cache];
    try (repeat split; now auto).
  split; [|split].
  - intros other Hne. now apply lookup_insert_ne.
  - intros k Hk. destruct (decide (url = k)) as [->|Hne].
    + rewrite lookup_insert_eq. now eexists.
    + now rewrite lookup_insert_ne.
  - intros -> k body Hk. rewrite lookup_insert_ne; [assumption|].
    intros <-. congruence.
Qed.

(** X2: whenever [get_page] returns a body, with or without the cache, the
    cache holds that body for the url after the call. *)
Theorem get_page_body_is_cached
        (url : string) (use_cache : bool) (self : Scraper World) (body : string) :
  fst (get_page session_get url use_cache self) = Some body ->
  cache (snd (get_page session_get url use_cache self)) !! url = Some body.
Proof.
  unfold get_page.
  destruct (if use_cache then cache self !! url else None) as [hit|] eqn:Hhit.
  { destruct use_cache; [|discriminate]. cbn. congruence. }
  destruct (session_get url (world self)) as [[|status_code text] w];
    [|destruct (raise_for_status status_code)]; cbn; try discriminate.
  intros [= ->]. apply lookup_insert_eq.
Qed.

(** X3: one call of [get_page] issues at most one GET, and only for the url
    asked; with [use_cache=False] it issues exactly one GET even when the
    url is cached; with [use_cache=True] it issues none when the url is
    cached. *)
Theorem get_page_transport
        (url : string) (use_cache : bool) (self : Scraper World) :
  (transport_log (snd (get_page session_get url use_cache self))
   = transport_log self
   \/ transport_log (snd (get_page session_get url use_cache self))
      = transport_log self ++ [url])
  /\ (use_cache = false ->
      transport_log (snd (get_page session_get url use_cache self))
      = transport_log self ++ [url])
  /\ (use_cache = true -> is_Some (cache self !! url) ->
      transport_log (snd (get_page session_get url use_cache self))
      = transport_log self)
  /\ (cache self !! url = None ->
      transport_log (snd (get_page session_get url use_cache self))
      = transport_log self ++ [url]).
Proof.
  assert (Hmiss : (if use_cache then cache self !! url else None) = None ->
                  transport_log (snd (get_page session_get url use_cache self))
                  = transport_log self ++ [url]).
  { intros H. unfold get_page. rewrite H.
    destruct (session_get url (world self)) as [[|status_code text] w];
      [|destruct (raise_for_status status_code)]; reflexivity. }
  split; [|split; [|split]].
  - destruct (if use_cache then cache self !! url else None) as [hit|] eqn:Hhit.
    + left. unfold get_page. now rewrite Hhit.
    + right. now apply Hmiss.
  - intros ->. now apply Hmiss.
  - intros -> [body Hbody]. unfold get_page. now rewrite Hbody.
  - intros Hnone. apply Hmiss. destruct use_cache; [assumption|reflexivity].
Qed.
End CacheFacts.

Lemma get_page_body_is_cached_witness :
  cache (snd (get_page list_page_server base_url false (new_scraper 0)))
    !! base_url = Some list_page_html.
Proof.
  apply (get_page_body_is_cached list_page_server base_url false
                                 (new_scraper 0) list_page_html).
  reflexivity.
Defined.

(** ** The link extractor *)

(** X4: every record made by [extract_anime_links] comes from an anchor of
    the document; its title is stripped and longer than 2 characters; its
    url is the anchor's href, contains "meownime.ltd", contains (ignoring
    case) "sub-indo" or "subtitle-indonesia" and none of the skipped
    words. *)
Theorem extract_anime_links_records (soup : BeautifulSoup) :
  Forall (fun a =>
            2 < Py.len (title a)
            /\ Py.strip (title a) = title a
            /\ Py.contains "meownime.ltd" (url a) = true
            /\ (Py.contains "sub-indo" (Py.lower (url a))
                || Py.contains "subtitle-indonesia" (Py.lower (url a))) = true
            /\ Py.contains_any skip_words (Py.lower (url a)) = false
            /\ exists link, In link (anchors soup)
                            /\ tag_href link = Some (url a))
         (extract_anime_links soup).
Proof.
  rewrite extract_anime_links_filter. apply List.Forall_forall.
  intros a Ha. apply in_map_iff in Ha as (link & <- & Hlink).
  apply filter_In in Hlink as [Hin Hok].
  apply find_all_a_href_In in Hin as [Hin Hhref].
  unfold is_anime_link in Hok.
  apply andb_true_iff in Hok as [Hok Htitle].
  apply andb_true_iff in Htitle as [_ Hlen].
  apply andb_true_iff in Hok as [Hok Hskip].
  apply andb_true_iff in Hok as [Hok Hsite].
  apply andb_true_iff in Hok as [Hok _].
  apply andb_true_iff in Hok as [Hpath _].
  cbn [anime_of_link title url].
  split; [now apply Nat.ltb_lt|].
  split; [apply strip_idempotent|].
  split; [assumption|]. split; [assumption|].
  split; [now apply negb_true_iff|now exists link].
Qed.

(** ** The deduplicator, again *)

Section FirstOccurrencesMore.
Context {A : Type} (key : A -> string) (eligible : string -> bool).

Lemma first_occurrences_fixpoint seen l :
  NoDup (map key l) ->
  Forall (fun x => eligible (key x) = true /\ key x ∉ seen) l ->
  first_occurrences key eligible seen l = l.
Proof.
  revert seen. induction l as [|x l IH]; intros seen Hnd Hall; [reflexivity|].
  cbn [map] in Hnd. apply NoDup_cons in Hnd as [Hx Hnd].
  inversion_clear Hall as [|? ? [Hel Hseen] Hall'].
  cbn [first_occurrences]. rewrite bool_decide_eq_true_2, Hel by assumption.
  cbn [andb]. f_equal. apply IH; [assumption|].
  apply List.Forall_forall. intros y Hy.
  rewrite List.Forall_forall in Hall'. destruct (Hall' y Hy) as [Hely Hseeny].
  split; [assumption|].
  apply not_elem_of_union. split; [|assumption].
  rewrite elem_of_singleton. intros Heq. apply Hx.
  rewrite list_elem_of_In, <- Heq. now apply in_map.
Qed.

Lemma first_occurrences_more_seen (more seen : gset string) l :
  first_occurrences key eligible (more ∪ seen) l
  = List.filter (fun x => bool_decide (key x ∉ more))
                (first_occurrences key eligible seen l).
Proof.
  revert seen. induction l as [|x l IH]; intros seen; [reflexivity|].
  cbn [first_occurrences].
  destruct (eligible (key x)) eqn:Hel; rewrite ?andb_false_r; [|apply IH].
  rewrite !andb_true_r.
  destruct (decide (key x ∈ seen)) as [Hs|Hs].
  { rewrite !bool_decide_eq_false_2; [apply IH|tauto|].
    rewrite elem_of_union. tauto. }
  rewrite (bool_decide_eq_true_2 (key x ∉ seen)) by assumption.
  cbn [List.filter].
  destruct (decide (key x ∈ more)) as [Hm|Hm].
  - rewrite !bool_decide_eq_false_2; [|tauto|rewrite elem_of_union; tauto].
    rewrite <- IH. f_equal.
    apply set_eq. intros k. rewrite !elem_of_union, elem_of_singleton.
    split; [tauto|]. intros [?|[->|?]]; tauto.
  - rewrite !bool_decide_eq_true_2; [|assumption|rewrite elem_of_union; tauto].
    rewrite <- IH. f_equal. f_equal.
    apply set_eq. intros k. rewrite !elem_of_union. tauto.
Qed.

Lemma first_occurrences_app seen l1 l2 :
  first_occurrences key eligible seen (l1 ++ l2)
  = first_occurrences key eligible seen l1
    ++ first_occurrences key eligible
         (list_to_set (map key (first_occurrences key eligible seen l1)) ∪ seen)
         l2.
Proof.
  revert seen. induction l1 as [|x l1 IH]; intros seen.
  - cbn [app first_occurrences map]. rewrite list_to_set_nil.
    now rewrite (left_id_L ∅ (∪)).
  - cbn [app first_occurrences].
    destruct (bool_decide (key x ∉ seen) && eligible (key x)); [|apply IH].
    cbn [app map]. rewrite IH, list_to_set_cons. do 3 f_equal.
    apply set_eq. intros k. rewrite !elem_of_union. tauto.
Qed.
End FirstOccurrencesMore.

(** X5: [remove_duplicates] is idempotent. *)
Theorem remove_duplicates_idempotent (anime_list : list Anime) :
  remove_duplicates (remove_duplicates anime_list)
  = remove_duplicates anime_list.
Proof.
  rewrite (remove_duplicates_first_occurrences (remove_duplicates anime_list)).
  rewrite (remove_duplicates_first_occurrences anime_list).
  apply first_occurrences_fixpoint.
  - apply first_occurrences_NoDup.
  - apply List.Forall_forall. intros a Ha.
    apply first_occurrences_In in Ha as (_ & _ & _ & _ & _ & Hel).
    split; [exact Hel|apply not_elem_of_empty].
Qed.

(** X6: deduplication can be done page by page: the result for two lists
    one after the other is the result for the first list, followed by the
    records of the result for the second list whose key the first result
    does not have. *)
Theorem remove_duplicates_app (first_list second_list : list Anime) :
  remove_duplicates (first_list ++ second_list)
  = remove_duplicates first_list
    ++ List.filter
         (fun a => bool_decide
                     (title_key a ∉ map title_key (remove_duplicates first_list)))
         (remove_duplicates second_list).
Proof.
  rewrite !remove_duplicates_first_occurrences, first_occurrences_app.
  f_equal. rewrite first_occurrences_more_seen.
  apply List.filter_ext. intros a. apply bool_decide_ext.
  now rewrite elem_of_list_to_set.
Qed.

(** ** The categories, again *)

(** X7: categorising two lists one after the other gives, bucket by
    bucket, the records of the first list followed by those of the second,
    and the three buckets together have as many records as the input. *)
Theorem categorize_anime_app (first_list second_list : list Anime) :
  ongoing (categorize_anime (first_list ++ second_list))
  = ongoing (categorize_anime first_list) ++ ongoing (categorize_anime second_list)
  /\ completed (categorize_anime (first_list ++ second_list))
     = completed (categorize_anime first_list)
       ++ completed (categorize_anime second_list)
  /\ movies (categorize_anime (first_list ++ second_list))
     = movies (categorize_anime first_list) ++ movies (categorize_anime second_list)
  /\ length (ongoing (categorize_anime first_list))
     + length (completed (categorize_anime first_list))
     + length (movies (categorize_anime first_list))
     = length first_list.
Proof.
  rewrite !categorize_anime_filters. cbn [ongoing completed movies].
  rewrite !List.filter_app. repeat split.
  induction first_list as [|a l IH]; [reflexivity|].
  cbn [List.filter length].
  destruct (rules_exclusive a) as [(-> & -> & ->)|[(-> & -> & ->)|(-> & -> & ->)]];
    cbn [length]; lia.
Qed.

(** ** The title cleaner, again *)

(** X8: a cleaned title has no white space at either end, and it is empty
    exactly when the title is blank. *)
Theorem clean_title_stripped (t : string) :
  Py.strip (clean_title t) = clean_title t
  /\ (clean_title t = "" <-> Py.strip t = "").
Proof.
  rewrite clean_title_steps.
  destruct (Nat.ltb 2 (Py.len (collapse_spaces (remove_patterns (Py.strip t)))))
    eqn:Hlen.
  - split; [apply strip_collapse_spaces|].
    split; intros H; rewrite H in Hlen; discriminate Hlen.
  - split; [apply strip_idempotent|tauto].
Qed.

Lemma length_lstrip s : String.length (Py.lstrip s) <= String.length s.
Proof.
  induction s as [|c s IH]; [reflexivity|].
  cbn [Py.lstrip]. destruct (Py.isspace c); cbn [String.length]; lia.
Qed.

Lemma length_rstrip s : String.length (Py.rstrip s) <= String.length s.
Proof.
  induction s as [|c s IH]; [reflexivity|].
  cbn [Py.rstrip]. destruct (Py.rstrip s); [destruct (Py.isspace c)|];
    cbn [String.length] in *; lia.
Qed.

Lemma length_strip s : String.length (Py.strip s) <= String.length s.
Proof.
  unfold Py.strip. pose proof (length_rstrip (Py.lstrip s)).
  pose proof (length_lstrip s). lia.
Qed.

Lemma length_replace_from old skip s :
  String.length (Py.replace_from old "" skip s) <= String.length s.
Proof.
  revert skip. induction s as [|c s IH]; intros skip; [reflexivity|].
  cbn [Py.replace_from]. destruct skip as [|k].
  - destruct (String.prefix old (String c s)).
    + change ("" ++ ?x)%string with x. cbn [String.length].
      specialize (IH (String.length old - 1)). lia.
    + cbn [String.length]. specialize (IH 0). lia.
  - cbn [String.length]. specialize (IH k). lia.
Qed.

Lemma interleave_empty s : Py.interleave "" s = s.
Proof.
  induction s as [|c s IH]; [reflexivity|].
  cbn [Py.interleave]. change ("" ++ ?x)%string with x. now rewrite IH.
Qed.

Lemma length_replace old s :
  String.length (Py.replace old "" s) <= String.length s.
Proof.
  destruct old as [|c old]; cbn [Py.replace].
  - now rewrite interleave_empty.
  - apply length_replace_from.
Qed.

Lemma length_remove_patterns s :
  String.length (remove_patterns s) <= String.length s.
Proof.
  unfold remove_patterns. revert s.
  induction unwanted_patterns as [|p ps IH]; intros s; [reflexivity|].
  cbn [fold_left]. etransitivity; [apply IH|].
  etransitivity; apply length_replace.
Qed.

Lemma length_collapse_spaces_strict s :
  String.length (collapse_spaces s) <= String.length s
  /\ (Py.starts_word s = false -> Py.split s <> [] ->
      S (String.length (collapse_spaces s)) <= String.length s).
Proof.
  unfold collapse_spaces.
  induction s as [|c s [IH1 IH2]]; [split; [reflexivity|intros _ H; now destruct H]|].
  cbn [Py.split Py.starts_word String.length].
  destruct (Py.isspace c) eqn:Hc; cbn [negb].
  { split; [lia|intros _ _; lia]. }
  split; [|discriminate].
  destruct (Py.starts_word s) eqn:Hs.
  - destruct (Py.split s) as [|w ws]; [cbn; lia|].
    destruct ws as [|w' ws].
    + change (Py.join " " [String c w]) with (String c (Py.join " " [w])).
      cbn [String.length]. lia.
    + rewrite join_cons, append_cons. cbn [String.length].
      rewrite join_cons in IH1. lia.
  - destruct (Py.split s) as [|w ws] eqn:Hsplit; [cbn; lia|].
    rewrite join_cons, !length_append. cbn [String.length].
    specialize (IH2 eq_refl ltac:(discriminate)). lia.
Qed.

Lemma length_collapse_spaces s :
  String.length (collapse_spaces s) <= String.length s.
Proof. apply length_collapse_spaces_strict. Qed.

(** X9: cleaning never makes a title longer. *)
Theorem clean_title_not_longer (t : string) :
  Py.len (clean_title t) <= Py.len t.
Proof.
  rewrite clean_title_steps. unfold Py.len.
  pose proof (length_strip t).
  destruct (Nat.ltb 2 _); [|assumption].
  pose proof (length_collapse_spaces (remove_patterns (Py.strip t))).
  pose proof (length_remove_patterns (Py.strip t)). lia.
Qed.

(** ** The synopsis, again *)

Lemma synopsis_loop_skip_unqualified soup pre rest :
  Forall (fun earlier =>
            List.filter qualifies (firstn 3 (select soup earlier)) = []) pre ->
  synopsis_loop soup (pre ++ rest) [] = synopsis_loop soup rest [].
Proof.
  induction 1 as [|selector pre Hsel _ IH]; [reflexivity|].
  cbn [app synopsis_loop].
  destruct (select soup selector) as [|p ps]; [exact IH|].
  rewrite synopsis_add_fold, Hsel. exact IH.
Qed.

(** X10: the synopsis comes from the first selector of the list for which
    one of its first three elements qualifies (longer than 30 characters,
    no disallowed word): it is the texts of the qualifying elements among
    those three, joined by single spaces and cut to 500 characters and an
    ellipsis when longer.  A selector whose first three elements all fail
    is passed over like a selector without elements. *)
Theorem extract_synopsis_first_qualifying
        (soup : BeautifulSoup) (pre post : list string) (selector : string) :
  synopsis_selectors = pre ++ selector :: post ->
  Forall (fun earlier =>
            List.filter qualifies (firstn 3 (select soup earlier)) = []) pre ->
  List.filter qualifies (firstn 3 (select soup selector)) <> [] ->
  extract_synopsis soup
  = ellipsize
      (Py.join " "
         (map get_text_strip
              (List.filter qualifies (firstn 3 (select soup selector))))).
Proof.
  intros Hsel Hpre Hq.
  rewrite extract_synopsis_ellipsize, Hsel, synopsis_loop_skip_unqualified
    by assumption.
  cbn [synopsis_loop].
  destruct (select soup selector) as [|p ps] eqn:Hselect;
    [now destruct Hq|].
  rewrite synopsis_add_fold. cbn [app].
  destruct (List.filter qualifies (firstn 3 (p :: ps))); [now destruct Hq|].
  reflexivity.
Qed.

Lemma extract_synopsis_first_qualifying_witness :
  extract_synopsis fallback_page = "A fox spirit was sealed inside him at birth.".
Proof.
  apply (extract_synopsis_first_qualifying
           fallback_page [".entry-content p"; ".post-content p"; ".content p"]
           [] "p").
  - reflexivity.
  - repeat constructor.
  - discriminate.
Defined.

(** X11: when no selector has a qualifying element among its first three,
    in particular on a page without paragraphs, the synopsis is the empty
    string. *)
Theorem extract_synopsis_nothing_qualifies (soup : BeautifulSoup) :
  Forall (fun selector =>
            List.filter qualifies (firstn 3 (select soup selector)) = [])
         synopsis_selectors ->
  extract_synopsis soup = "".
Proof.
  intros H. rewrite extract_synopsis_ellipsize.
  rewrite <- (app_nil_r synopsis_selectors).
  now rewrite synopsis_loop_skip_unqualified.
Qed.

Lemma extract_synopsis_nothing_qualifies_witness :
  extract_synopsis blank_page = "".
Proof.
  apply (extract_synopsis_nothing_qualifies blank_page).
  repeat constructor.
Defined.

(** ** Lower case *)

Lemma lower_char_idempotent c : Py.lower_char (Py.lower_char c) = Py.lower_char c.
Proof. destruct c as [[] [] [] [] [] [] [] []]; reflexivity. Qed.

Lemma lower_idempotent s : Py.lower (Py.lower s) = Py.lower s.
Proof.
  induction s as [|c s IH]; [reflexivity|].
  cbn [Py.lower]. now rewrite lower_char_idempotent, IH.
Qed.

Lemma isspace_lower_char c : Py.isspace (Py.lower_char c) = Py.isspace c.
Proof. destruct c as [[] [] [] [] [] [] [] []]; reflexivity. Qed.

Lemma prefix_lower sub s :
  String.prefix sub s = true ->
  String.prefix (Py.lower sub) (Py.lower s) = true.
Proof.
  revert s. induction sub as [|a sub IH]; intros s; [now destruct s|].
  destruct s as [|b s]; [discriminate|].
  cbn [String.prefix Py.lower].
  destruct (ascii_dec a b) as [->|]; [|discriminate].
  intros H. destruct (ascii_dec (Py.lower_char b) (Py.lower_char b));
    [now apply IH|contradiction].
Qed.

Lemma contains_prefix sub s : String.prefix sub s = true -> Py.contains sub s = true.
Proof. intros H. destruct s; cbn [Py.contains]; now rewrite H. Qed.

Lemma contains_lower sub s :
  Py.contains sub s = true -> Py.contains (Py.lower sub) (Py.lower s) = true.
Proof.
  induction s as [|c s IH]; cbn [Py.contains]; intros H;
    apply orb_true_iff in H as [H|H]; try discriminate.
  - apply contains_prefix, prefix_lower, H.
  - apply contains_prefix, prefix_lower, H.
  - cbn [Py.lower Py.contains]. rewrite (IH H). apply orb_true_r.
Qed.

(** ** Download links, again *)

Lemma determine_link_type_provider href :
  is_download_href href = true -> determine_link_type href <> "Other".
Proof.
  unfold is_download_href, download_domains. cbn [existsb].
  intros H. unfold determine_link_type.
  repeat match type of H with
         | (Py.contains ?d href || _) = true =>
             apply orb_true_iff in H as [H|H];
             [apply contains_lower in H; change (Py.lower d) with d in H;
              rewrite H;
              repeat match goal with
                     | |- context [if Py.contains ?d' ?u then _ else _] =>
                         destruct (Py.contains d' u)
                     end; discriminate|]
         end.
  discriminate H.
Qed.

(** X12: every link returned by [extract_download_links] has a text of at
    most 100 characters and the type that [determine_link_type] gives its
    url, and that type is one of the six providers, never "Other". *)
Theorem extract_download_links_typed (soup : BeautifulSoup) :
  Forall (fun l => Py.len (link_text l) <= 100
                   /\ link_type l = determine_link_type (link_url l)
                   /\ link_type l <> "Other")
         (extract_download_links soup).
Proof.
  rewrite extract_download_links_first_occurrences.
  apply List.Forall_forall. intros l Hl.
  apply In_firstn in Hl.
  apply first_occurrences_In in Hl as (pre & post & Heq & _).
  assert (Hin : In l (map download_link_of
                          (List.filter
                             (fun link => is_download_href (get_href link))
                             (find_all_a_href soup))))
    by (rewrite Heq; apply in_or_app; right; now left).
  apply in_map_iff in Hin as (a & <- & Ha).
  apply filter_In in Ha as [_ Hd].
  cbn [download_link_of link_text link_type link_url].
  split; [|split; [reflexivity|now apply determine_link_type_provider]].
  unfold Py.len. rewrite length_slice_to. apply Nat.le_min_l.
Qed.

(** X13: [determine_link_type] ignores the case of the url, and it answers
    "Other" exactly when the lower-cased url contains none of the six
    domains. *)
Theorem determine_link_type_other (url : string) :
  determine_link_type (Py.lower url) = determine_link_type url
  /\ (determine_link_type url = "Other"
      <-> existsb (fun domain => Py.contains domain (Py.lower url))
                  download_domains = false).
Proof.
  split.
  - unfold determine_link_type. now rewrite lower_idempotent.
  - unfold determine_link_type, download_domains. cbn [existsb].
    repeat match goal with
           | |- context [if Py.contains ?d ?u then _ else _] =>
               destruct (Py.contains d u)
           end; cbn [orb]; split; (discriminate || reflexivity).
Qed.

Section FirstOccurrencesKeys.
Context {A : Type} (key : A -> string) (eligible : string -> bool).

Lemma first_occurrences_keys seen l k :
  In k (map key l) -> eligible k = true -> k ∉ seen ->
  In k (map key (first_occurrences key eligible seen l)).
Proof.
  revert seen. induction l as [|y l IH]; intros seen Hin Hel Hseen; [easy|].
  cbn [first_occurrences]. destruct (decide (key y = k)) as [Hy|Hy].
  - rewrite Hy, bool_decide_eq_true_2, Hel by assumption.
    cbn [andb map]. left. exact Hy.
  - destruct Hin as [Hin|Hin]; [contradiction|].
    destruct (bool_decide (key y ∉ seen) && eligible (key y)).
    + cbn [map]. right. apply IH; [assumption..|].
      apply not_elem_of_union. split; [|assumption].
      rewrite elem_of_singleton. congruence.
    + now apply IH.
Qed.

Lemma first_occurrences_length seen l :
  length (first_occurrences key eligible seen l) <= length l.
Proof. apply sublist_length, first_occurrences_sublist. Qed.
End FirstOccurrencesKeys.

(** X14: when the page has at most 10 anchors with an allowlisted href, no
    download url is lost: the href of every such anchor is the url of a
    link returned. *)
Theorem extract_download_links_complete (soup : BeautifulSoup) :
  length (List.filter (fun link => is_download_href (get_href link))
                      (find_all_a_href soup)) <= 10 ->
  forall link href,
    In link (anchors soup) -> tag_href link = Some href ->
    is_download_href href = true ->
    In href (map link_url (extract_download_links soup)).
Proof.
  intros Hcap link href Hin Hhref Hd.
  rewrite extract_download_links_first_occurrences.
  rewrite firstn_all2.
  - apply first_occurrences_keys; [|reflexivity|apply not_elem_of_empty].
    rewrite map_map. cbn [download_link_of link_url].
    apply in_map_iff. exists link.
    assert (Hget : get_href link = href) by (unfold get_href; now rewrite Hhref).
    split; [exact Hget|].
    apply filter_In. split; [|now rewrite Hget].
    unfold find_all_a_href. apply filter_In. split; [assumption|].
    now rewrite Hhref.
  - etransitivity; [apply first_occurrences_length|].
    now rewrite length_map.
Qed.

Lemma extract_download_links_complete_witness :
  In "https://mega.nz/file/2" (map link_url (extract_download_links download_page)).
Proof.
  apply (extract_download_links_complete download_page
           ltac:(apply Nat.leb_le; reflexivity)
           (anchor "Batch" "https://mega.nz/file/2") "https://mega.nz/file/2").
  - right. right. left. reflexivity.
  - reflexivity.
  - reflexivity.
Defined.

Example extract_download_links_example :
  extract_download_links download_page
  = [{| link_text := "Episode 1"; link_url := "https://drive.google.com/file/d/1";
        link_type := "Google Drive" |};
     {| link_text := "Batch"; link_url := "https://mega.nz/file/2";
        link_type := "MEGA" |}].
Proof. vm_compute. reflexivity. Qed.

(** ** Sorting and filtering *)

Section SortFilter.
Context {A K : Type} (key : A -> K) (leb : K -> K -> bool).
Hypothesis leb_total : forall k1 k2, leb k1 k2 = true \/ leb k2 k1 = true.
Hypothesis leb_trans :
  forall k1 k2 k3, leb k1 k2 = true -> leb k2 k3 = true -> leb k1 k3 = true.

Lemma insert_by_least x l :
  Forall (fun y => leb (key x) (key y) = true) l ->
  insert_by key leb x l = x :: l.
Proof. intros [|y l' Hy _]; [reflexivity|]. cbn [insert_by]. now rewrite Hy. Qed.

Lemma filter_insert_by (p : A -> bool) x l :
  StronglySorted (fun a b => leb (key a) (key b) = true) l ->
  List.filter p (insert_by key leb x l)
  = if p x then insert_by key leb x (List.filter p l) else List.filter p l.
Proof.
  induction 1 as [|y l Hl IH Hy]; [cbn; now destruct (p x)|].
  cbn [insert_by]. destruct (leb (key x) (key y)) eqn:Hxy.
  - cbn [List.filter]. destruct (p x); [|reflexivity].
    symmetry. apply (insert_by_least x (List.filter p (y :: l))).
    apply List.Forall_forall. intros z Hz.
    apply filter_In in Hz as [Hz _]. destruct Hz as [<-|Hz]; [exact Hxy|].
    rewrite List.Forall_forall in Hy. exact (leb_trans _ _ _ Hxy (Hy z Hz)).
  - cbn [List.filter]. rewrite IH.
    destruct (p y), (p x); cbn [insert_by]; rewrite ?Hxy; reflexivity.
Qed.

Lemma sort_by_filter (p : A -> bool) l :
  sort_by key leb (List.filter p l) = List.filter p (sort_by key leb l).
Proof.
  induction l as [|x l IH]; [reflexivity|].
  cbn [List.filter sort_by].
  rewrite filter_insert_by by now apply sort_by_sorted.
  destruct (p x); cbn [sort_by]; now rewrite IH.
Qed.
End SortFilter.

(** ** Records with distinct keys *)

Lemma NoDup_map_inj {A B : Type} (f : A -> B) l a b :
  NoDup (map f l) -> In a l -> In b l -> f a = f b -> a = b.
Proof.
  induction l as [|x l IH]; [easy|].
  cbn [map]. intros Hnd Ha Hb Hf. apply NoDup_cons in Hnd as [Hx Hnd].
  rewrite list_elem_of_In in Hx.
  destruct Ha as [->|Ha], Hb as [->|Hb]; [reflexivity| | |now apply IH].
  - exfalso. apply Hx. rewrite Hf. now apply in_map.
  - exfalso. apply Hx. rewrite <- Hf. now apply in_map.
Qed.

Lemma NoDup_map_filter {A B : Type} (f : A -> B) (p : A -> bool) l :
  NoDup (map f l) -> NoDup (map f (List.filter p l)).
Proof.
  induction l as [|x l IH]; [easy|].
  cbn [map List.filter]. intros Hnd. apply NoDup_cons in Hnd as [Hx Hnd].
  destruct (p x); [|now apply IH].
  cbn [map]. apply NoDup_cons_2; [|now apply IH].
  rewrite list_elem_of_In in *. intros Hin. apply Hx.
  apply in_map_iff in Hin as (y & Hy & Hin). apply in_map_iff.
  exists y. split; [assumption|]. now apply filter_In in Hin as [Hin _].
Qed.

Lemma NoDup_map_buckets {A B : Type} (f : A -> B) (p q : A -> bool) n m l :
  NoDup (map f l) ->
  (forall a, p a = true -> q a = true -> False) ->
  forall x, In x (map f (firstn n (List.filter p l))) ->
            In x (map f (firstn m (List.filter q l))) -> False.
Proof.
  intros Hnd Hpq x Hp Hq.
  apply in_map_iff in Hp as (a & Ha & Hina).
  apply in_map_iff in Hq as (b & Hb & Hinb).
  apply In_firstn, filter_In in Hina as [Hina Hpa].
  apply In_firstn, filter_In in Hinb as [Hinb Hqb].
  assert (a = b) as -> by (apply (NoDup_map_inj f l); congruence).
  eauto.
Qed.

(** ** The list page and the home page *)

Section PageFacts.
Context {World : Type}.
Variable session_get : string -> World -> Outcome * World.
Variable html_parser : string -> BeautifulSoup.

Lemma get_page_stores_body url use_cache (self self1 : Scraper World) body :
  get_page session_get url use_cache self = (Some body, self1) ->
  cache self1 !! url = Some body.
Proof.
  unfold get_page.
  destruct (if use_cache then cache self !! url else None) as [hit|] eqn:Hhit.
  { destruct use_cache; [|discriminate]. intros [= <- <-]. exact Hhit. }
  destruct (session_get url (world self)) as [[|status_code text] w];
    [|destruct (raise_for_status status_code)]; try discriminate.
  intros [= <- <-]. apply lookup_insert_eq.
Qed.

Lemma scrape_anime_list_page letter (self : Scraper World) :
  scrape_anime_list session_get html_parser letter self
  = (match fst (get_page session_get (base_url ++ "/anime-list-baru")%string
                         true self) with
     | None | Some "" => []
     | Some html =>
         sort_by (fun x => Py.lower (title x)) Py.str_leb
                 (letter_filter letter
                    (remove_duplicates (extract_anime_links (html_parser html))))
     end,
     snd (get_page session_get (base_url ++ "/anime-list-baru")%string true self)).
Proof.
  unfold scrape_anime_list.
  destruct (get_page session_get _ true self) as [[[|c html]|] self1];
    reflexivity.
Qed.

Lemma scrape_home_page_page (self : Scraper World) :
  scrape_home_page session_get html_parser self
  = (match fst (get_page session_get base_url true self) with
     | None | Some "" => no_categories
     | Some html =>
         let records := remove_duplicates (extract_anime_links (html_parser html)) in
         {| ongoing := firstn 20 (List.filter ongoing_rule records);
            completed := firstn 20 (List.filter completed_rule records);
            movies := firstn 20 (List.filter movie_rule records) |}
     end,
     snd (get_page session_get base_url true self)).
Proof.
  unfold scrape_home_page.
  destruct (get_page session_get base_url true self) as [[[|c html]|] self1];
    try reflexivity.
  cbn [fst snd]. now rewrite categorize_anime_filters.
Qed.

Lemma remove_duplicates_NoDup anime_list :
  NoDup (map title_key (remove_duplicates anime_list)).
Proof.
  rewrite remove_duplicates_first_occurrences. apply first_occurrences_NoDup.
Qed.

(** X15: no two records of the list returned by [scrape_anime_list] have
    the same key [title.lower().strip()]; with a letter every title
    returned starts with that letter, ignoring case; and when the page
    cannot be fetched the list is empty. *)
Theorem scrape_anime_list_records (letter : option string) (self : Scraper World) :
  NoDup (map title_key
             (fst (scrape_anime_list session_get html_parser letter self)))
  /\ (forall l, letter = Some l -> l <> "" ->
        Forall (fun a => Py.startswith (Py.lower (title a)) (Py.lower l) = true)
               (fst (scrape_anime_list session_get html_parser letter self)))
  /\ (fst (get_page session_get (base_url ++ "/anime-list-baru")%string true self)
      = None ->
      fst (scrape_anime_list session_get html_parser letter self) = []).
Proof.
  rewrite scrape_anime_list_page. cbn [fst].
  destruct (fst (get_page session_get _ true self)) as [[|c html]|];
    try (repeat split; (constructor || discriminate || reflexivity)).
  set (records := remove_duplicates _).
  split; [|split; [|discriminate]].
  - apply (NoDup_Permutation_proper _ _
             (Permutation_map title_key (sort_by_Permutation _ _ _))).
    destruct letter as [[|c' letter]|]; cbn [letter_filter];
      try apply NoDup_map_filter; apply remove_duplicates_NoDup.
  - intros l -> Hl. destruct l as [|c' l]; [contradiction|].
    cbn [letter_filter]. apply List.Forall_forall. intros a Ha.
    apply (Permutation_in _ (sort_by_Permutation _ _ _)) in Ha.
    now apply filter_In in Ha as [_ Ha].
Qed.

(** X16: the list for a letter is the full list restricted to the titles
    that start with the letter, ignoring case, in the same order. *)
Theorem scrape_anime_list_letter (letter : string) (self : Scraper World) :
  fst (scrape_anime_list session_get html_parser (Some letter) self)
  = letter_filter (Some letter)
      (fst (scrape_anime_list session_get html_parser None self)).
Proof.
  rewrite !scrape_anime_list_page. cbn [fst].
  destruct (fst (get_page session_get _ true self)) as [[|c html]|];
    try (destruct letter; reflexivity).
  destruct letter as [|c' letter]; [reflexivity|]. cbn [letter_filter].
  apply sort_by_filter; [apply str_leb_total|apply str_leb_trans].
Qed.

(** X17: once [scrape_anime_list] has returned records, the page is in the
    cache: a later call, with any letter, issues no GET and leaves the
    scraper as it is, and the same letter gives the same list again. *)
Theorem scrape_anime_list_again
        (letter letter' : option string) (self : Scraper World) :
  fst (scrape_anime_list session_get html_parser letter self) <> [] ->
  snd (scrape_anime_list session_get html_parser letter'
         (snd (scrape_anime_list session_get html_parser letter self)))
  = snd (scrape_anime_list session_get html_parser letter self)
  /\ fst (scrape_anime_list session_get html_parser letter
            (snd (scrape_anime_list session_get html_parser letter self)))
     = fst (scrape_anime_list session_get html_parser letter self).
Proof.
  rewrite (scrape_anime_list_page letter self). cbn [fst snd].
  destruct (get_page session_get _ true self) as [[html|] self1] eqn:Hget;
    cbn [fst snd]; [|now intros []].
  intros Hne. apply get_page_stores_body in Hget.
  rewrite !scrape_anime_list_page, (get_page_hit _ _ _ _ Hget). now cbn.
Qed.

(** X18: each bucket returned by [scrape_home_page] has at most 20 records;
    no two records of the three buckets together have the same key; the
    movies bucket holds only records the movie rule accepts and the other
    two only records it rejects; when the page cannot be fetched the three
    buckets are empty. *)
Theorem scrape_home_page_buckets (self : Scraper World) :
  length (ongoing (fst (scrape_home_page session_get html_parser self))) <= 20
  /\ length (completed (fst (scrape_home_page session_get html_parser self))) <= 20
  /\ length (movies (fst (scrape_home_page session_get html_parser self))) <= 20
  /\ NoDup (map title_key
              (ongoing (fst (scrape_home_page session_get html_parser self))
               ++ completed (fst (scrape_home_page session_get html_parser self))
               ++ movies (fst (scrape_home_page session_get html_parser self))))
  /\ Forall (fun a => movie_rule a = true)
            (movies (fst (scrape_home_page session_get html_parser self)))
  /\ Forall (fun a => movie_rule a = false)
            (ongoing (fst (scrape_home_page session_get html_parser self))
             ++ completed (fst (scrape_home_page session_get html_parser self)))
  /\ (fst (get_page session_get base_url true self) = None ->
      fst (scrape_home_page session_get html_parser self) = no_categories).
Proof.
  rewrite scrape_home_page_page. cbn [fst].
  destruct (fst (get_page session_get base_url true self)) as [[|c html]|];
    try (cbn; repeat split; (lia || constructor)).
  set (records := remove_duplicates _). cbn [ongoing completed movies].
  pose proof (remove_duplicates_NoDup (extract_anime_links (html_parser (String c html))))
    as Hnd. fold records in Hnd.
  assert (Hrule : forall (p : Anime -> bool) b n,
             (forall a, p a = true -> movie_rule a = b) ->
             Forall (fun a => movie_rule a = b) (firstn n (List.filter p records))).
  { intros p b n Hp. apply List.Forall_forall. intros a Ha.
    apply In_firstn, filter_In in Ha as [_ Ha]. now apply Hp. }
  assert (Hongoing : forall a, ongoing_rule a = true -> movie_rule a = false).
  { intros a. unfold ongoing_rule. destruct (movie_rule a); [discriminate|easy]. }
  assert (Hcompleted : forall a, completed_rule a = true -> movie_rule a = false).
  { intros a. unfold completed_rule. destruct (movie_rule a); [discriminate|easy]. }
  split; [apply firstn_le_length|]. split; [apply firstn_le_length|].
  split; [apply firstn_le_length|]. split; [|split; [|split; [|discriminate]]].
  - assert (Hex : forall p q : Anime -> bool,
               (forall a, p a = true -> q a = true -> False) ->
               forall k, In k (map title_key (firstn 20 (List.filter p records))) ->
                         In k (map title_key (firstn 20 (List.filter q records))) ->
                         False).
    { intros p q Hpq k. now apply (NoDup_map_buckets title_key p q 20 20 records). }
    assert (Hoc : forall a, ongoing_rule a = true -> completed_rule a = true -> False).
    { intros a. destruct (rules_exclusive a) as [(?&?&?)|[(?&?&?)|(?&?&?)]];
        congruence. }
    assert (Hom : forall a, ongoing_rule a = true -> movie_rule a = true -> False).
    { intros a. destruct (rules_exclusive a) as [(?&?&?)|[(?&?&?)|(?&?&?)]];
        congruence. }
    assert (Hcm : forall a, completed_rule a = true -> movie_rule a = true -> False).
    { intros a. destruct (rules_exclusive a) as [(?&?&?)|[(?&?&?)|(?&?&?)]];
        congruence. }
    rewrite !map_app. apply NoDup_app.
    split; [now apply NoDup_map_firstn, NoDup_map_filter|]. split.
    + intros k Hk Hk'. rewrite list_elem_of_In in Hk, Hk'.
      apply in_app_or in Hk' as [Hk'|Hk'];
        [exact (Hex _ _ Hoc k Hk Hk')|exact (Hex _ _ Hom k Hk Hk')].
    + apply NoDup_app.
      split; [now apply NoDup_map_firstn, NoDup_map_filter|]. split.
      * intros k Hk Hk'. rewrite list_elem_of_In in Hk, Hk'.
        exact (Hex _ _ Hcm k Hk Hk').
      * now apply NoDup_map_firstn, NoDup_map_filter.
  - now apply Hrule.
  - apply Forall_app. split; now apply Hrule.
Qed.
End PageFacts.

Lemma scrape_anime_list_again_witness :
  snd (scrape_anime_list list_page_server list_page_parser (Some "B")
         (snd (scrape_anime_list list_page_server list_page_parser None
                 (new_scraper 0))))
  = snd (scrape_anime_list list_page_server list_page_parser None (new_scraper 0))
  /\ fst (scrape_anime_list list_page_server list_page_parser None
            (snd (scrape_anime_list list_page_server list_page_parser None
                    (new_scraper 0))))
     = fst (scrape_anime_list list_page_server list_page_parser None (new_scraper 0)).
Proof.
  apply (scrape_anime_list_again list_page_server list_page_parser
                                 None (Some "B") (new_scraper 0)).
  vm_compute. discriminate.
Defined.

(** ** The year *)

Lemma year_at_prefix s y :
  year_at s = Some y ->
  String.prefix y s = true
  /\ exists c d,
       (y = String "1" (String "9" (String c (String d "")))
        \/ y = String "2" (String "0" (String c (String d ""))))
       /\ isdigit c = true /\ isdigit d = true.
Proof.
  destruct s as [|a [|b [|c [|d rest]]]]; try discriminate.
  cbn [year_at].
  destruct (_ && _ && _ && _) eqn:Hcond; [|discriminate].
  intros [= <-].
  repeat (apply andb_true_iff in Hcond as [Hcond ?]).
  split.
  - cbn [String.prefix].
    repeat match goal with
           | |- context [ascii_dec ?x ?x] =>
               destruct (ascii_dec x x); [|contradiction]
           end.
    now destruct rest.
  - exists c, d. split; [|split; assumption].
    apply orb_true_iff in Hcond as [Hcond|Hcond];
      apply andb_true_iff in Hcond as [Ha Hb];
      apply Ascii.eqb_eq in Ha, Hb; subst; [now left|now right].
Qed.

Lemma year_search_sound after_word s y :
  year_search after_word s = Some y ->
  Py.contains y s = true
  /\ exists c d,
       (y = String "1" (String "9" (String c (String d "")))
        \/ y = String "2" (String "0" (String c (String d ""))))
       /\ isdigit c = true /\ isdigit d = true.
Proof.
  revert after_word. induction s as [|a s IH]; intros after_word; [discriminate|].
  cbn [year_search].
  destruct (if after_word then None else year_at (String a s)) as [found|] eqn:Hat.
  - intros [= <-]. destruct after_word; [discriminate|].
    apply year_at_prefix in Hat as [Hprefix Hshape].
    split; [now apply contains_prefix|exact Hshape].
  - intros Hrest. apply IH in Hrest as [Hc Hshape].
    split; [|exact Hshape]. cbn [Py.contains]. rewrite Hc. apply orb_true_r.
Qed.

(** ** Strip and lower case *)

Lemma lower_lstrip s : Py.lower (Py.lstrip s) = Py.lstrip (Py.lower s).
Proof.
  induction s as [|c s IH]; [reflexivity|].
  cbn [Py.lstrip Py.lower]. rewrite isspace_lower_char.
  destruct (Py.isspace c); [exact IH|reflexivity].
Qed.

Lemma lower_rstrip s : Py.lower (Py.rstrip s) = Py.rstrip (Py.lower s).
Proof.
  induction s as [|c s IH]; [reflexivity|].
  cbn [Py.rstrip Py.lower]. rewrite <- IH, isspace_lower_char.
  destruct (Py.rstrip s); [destruct (Py.isspace c)|]; reflexivity.
Qed.

Lemma lower_strip s : Py.lower (Py.strip s) = Py.strip (Py.lower s).
Proof. unfold Py.strip. now rewrite lower_rstrip, lower_lstrip. Qed.

(** X19: the search ignores the case of the query and the white space
    around it: a query and its lower-cased, stripped form give the same
    result on every list. *)
Theorem search_results_normalised (all_anime : list Anime) (query : string) :
  search_results all_anime (Py.strip (Py.lower query))
  = search_results all_anime query.
Proof.
  unfold search_results.
  now rewrite lower_strip, lower_idempotent, strip_idempotent.
Qed.

(** ** Details, statistics and the routes *)

Lemma genre_loop_length soup selectors : length (genre_loop soup selectors) <= 5.
Proof.
  induction selectors as [|selector rest IH]; cbn [genre_loop]; [cbn; lia|].
  destruct (select soup selector) as [|g gs]; [exact IH|].
  rewrite length_map. apply firstn_le_length.
Qed.

Lemma genre_loop_skip soup pre rest :
  Forall (fun earlier => select soup earlier = []) pre ->
  genre_loop soup (pre ++ rest) = genre_loop soup rest.
Proof.
  induction 1 as [|selector pre Hsel _ IH]; [reflexivity|].
  cbn [app genre_loop]. now rewrite Hsel.
Qed.

Lemma ellipsize_length synopsis : Py.len (ellipsize synopsis) <= 503.
Proof.
  destruct (Nat.lt_ge_cases 500 (Py.len synopsis)) as [Hlong|Hshort].
  - destruct (ellipsize_long synopsis Hlong) as [_ ->]. lia.
  - rewrite (ellipsize_short synopsis Hshort). lia.
Qed.

Section DetailFacts.
Context {World : Type}.
Variable session_get : string -> World -> Outcome * World.
Variable html_parser : string -> BeautifulSoup.
Variable find : BeautifulSoup -> string -> option Tag.
Variable get_text : BeautifulSoup -> string.

Lemma get_page_cache_size url use_cache (self : Scraper World) :
  size (cache self) <= size (cache (snd (get_page session_get url use_cache self)))
  /\ size (cache (snd (get_page session_get url use_cache self)))
     <= S (size (cache self)).
Proof.
  unfold get_page.
  destruct (if use_cache then cache self !! url else None); [cbn; lia|].
  destruct (session_get url (world self)) as [[|status_code text] w];
    [|destruct (raise_for_status status_code)]; cbn [snd cache]; try lia.
  rewrite map_size_insert. destruct (cache self !! url); cbn; lia.
Qed.

Lemma get_page_log url use_cache (self : Scraper World) :
  exists extra,
    transport_log (snd (get_page session_get url use_cache self))
    = transport_log self ++ extra
    /\ length extra <= 1.
Proof.
  unfold get_page.
  destruct (if use_cache then cache self !! url else None).
  { exists []. cbn [snd length]. rewrite app_nil_r. split; [reflexivity|lia]. }
  exists [url].
  destruct (session_get url (world self)) as [[|status_code text] w];
    [|destruct (raise_for_status status_code)]; cbn [snd transport_log length];
    split; (reflexivity || lia).
Qed.

Lemma scrape_anime_details_page anime_url (self : Scraper World) :
  scrape_anime_details session_get html_parser find get_text anime_url self
  = (match fst (get_page session_get anime_url true self) with
     | None | Some "" => None
     | Some html =>
         Some {| detail_title := title_loop find (html_parser html) title_selectors;
                 detail_synopsis := extract_synopsis (html_parser html);
                 detail_download_links := extract_download_links (html_parser html);
                 detail_metadata := extract_metadata get_text (html_parser html);
                 detail_url := anime_url |}
     end,
     snd (get_page session_get anime_url true self)).
Proof.
  unfold scrape_anime_details.
  destruct (get_page session_get anime_url true self) as [[[|c html]|] self1];
    reflexivity.
Qed.

Lemma title_loop_first soup pre selector post title_element :
  Forall (fun earlier => find soup earlier = None) pre ->
  find soup selector = Some title_element ->
  title_loop find soup (pre ++ selector :: post)
  = clean_title (get_text_strip title_element).
Proof.
  intros Hpre Hfind.
  induction Hpre as [|earlier pre Hnone _ IH]; cbn [app title_loop].
  - now rewrite Hfind.
  - now rewrite Hnone.
Qed.

Lemma title_loop_none soup selectors :
  Forall (fun selector => find soup selector = None) selectors ->
  title_loop find soup selectors = "Unknown Title".
Proof.
  induction 1 as [|selector rest Hsel _ IH]; cbn [title_loop];
    [reflexivity|now rewrite Hsel].
Qed.

(** X20: [scrape_anime_details] returns [None] exactly when the page cannot
    be fetched or its body is empty; the detail it returns otherwise
    carries the url asked, a synopsis of at most 503 characters, at most
    10 download links and at most 5 genres, and its status and episodes
    are always [None]. *)
Theorem scrape_anime_details_result (anime_url : string) (self : Scraper World) :
  (fst (scrape_anime_details session_get html_parser find get_text anime_url self)
   = None
   <-> fst (get_page session_get anime_url true self) = None
       \/ fst (get_page session_get anime_url true self) = Some "")
  /\ (forall detail,
        fst (scrape_anime_details session_get html_parser find get_text
                                  anime_url self) = Some detail ->
        detail_url detail = anime_url
        /\ Py.len (detail_synopsis detail) <= 503
        /\ length (detail_download_links detail) <= 10
        /\ length (genre (detail_metadata detail)) <= 5
        /\ status (detail_metadata detail) = None
        /\ episodes (detail_metadata detail) = None).
Proof.
  rewrite scrape_anime_details_page. cbn [fst].
  destruct (fst (get_page session_get anime_url true self)) as [[|c html]|].
  - split; [split; auto|discriminate].
  - split.
    + split; [discriminate|]. intros [H|H]; discriminate H.
    + intros detail [= <-].
      cbn [detail_url detail_synopsis detail_download_links detail_metadata
           extract_metadata genre status episodes].
      split; [reflexivity|].
      split; [rewrite extract_synopsis_ellipsize; apply ellipsize_length|].
      split; [apply firstn_le_length|].
      split; [apply genre_loop_length|]. split; reflexivity.
  - split; [split; auto|discriminate].
Qed.

(** X21: the title of a detail comes from the first selector of
    h1, .entry-title, .post-title, title for which [soup.find] returns an
    element: it is the cleaned text of that element. *)
Theorem scrape_anime_details_title
        (anime_url : string) (self : Scraper World) (html : string)
        (detail : AnimeDetail) (pre post : list string) (selector : string)
        (title_element : Tag) :
  fst (get_page session_get anime_url true self) = Some html ->
  fst (scrape_anime_details session_get html_parser find get_text anime_url self)
  = Some detail ->
  title_selectors = pre ++ selector :: post ->
  Forall (fun earlier => find (html_parser html) earlier = None) pre ->
  find (html_parser html) selector = Some title_element ->
  detail_title detail = clean_title (get_text_strip title_element).
Proof.
  intros Hget Hdetail Hsel Hpre Hfind.
  rewrite scrape_anime_details_page, Hget in Hdetail. cbn [fst] in Hdetail.
  destruct html as [|c html]; [discriminate|].
  rewrite Hsel, (title_loop_first _ _ _ _ title_element) in Hdetail
    by assumption.
  now injection Hdetail as <-.
Qed.

(** X22: when [soup.find] returns no element for any of the four title
    selectors, the title of the detail is "Unknown Title". *)
Theorem scrape_anime_details_unknown_title
        (anime_url : string) (self : Scraper World) (html : string)
        (detail : AnimeDetail) :
  fst (get_page session_get anime_url true self) = Some html ->
  fst (scrape_anime_details session_get html_parser find get_text anime_url self)
  = Some detail ->
  Forall (fun selector => find (html_parser html) selector = None)
         title_selectors ->
  detail_title detail = "Unknown Title".
Proof.
  intros Hget Hdetail Hnone.
  rewrite scrape_anime_details_page, Hget in Hdetail. cbn [fst] in Hdetail.
  destruct html as [|c html]; [discriminate|].
  rewrite title_loop_none in Hdetail by assumption.
  now injection Hdetail as <-.
Qed.

(** X23: the genres are the texts of the first five elements, at most, of
    the first genre selector that returns elements. *)
Theorem extract_metadata_genre
        (soup : BeautifulSoup) (pre post : list string) (selector : string) :
  genre_selectors = pre ++ selector :: post ->
  Forall (fun earlier => select soup earlier = []) pre ->
  select soup selector <> [] ->
  genre (extract_metadata get_text soup)
  = map get_text_strip (firstn 5 (select soup selector)).
Proof.
  intros Hsel Hpre Hne. cbn [extract_metadata genre].
  rewrite Hsel, genre_loop_skip by assumption. cbn [genre_loop].
  destruct (select soup selector); [now destruct Hne|reflexivity].
Qed.

(** X24: a year reported in the metadata is a string of four characters,
    "19" or "20" followed by two decimal digits, and it occurs in the text
    of the page. *)
Theorem extract_metadata_year (soup : BeautifulSoup) (year_match : string) :
  year (extract_metadata get_text soup) = Some year_match ->
  Py.contains year_match (get_text soup) = true
  /\ exists c d,
       (year_match = String "1" (String "9" (String c (String d "")))
        \/ year_match = String "2" (String "0" (String c (String d ""))))
       /\ isdigit c = true /\ isdigit d = true.
Proof. cbn [extract_metadata year]. apply year_search_sound. Qed.

(** X25: [get_statistics] reports at most 20 records per bucket and the
    size of the cache after its two scrapes; it issues at most two GETs
    and adds at most two entries to the cache, removing none. *)
Theorem get_statistics_bounds (self : Scraper World) :
  ongoing_count (fst (get_statistics session_get html_parser self)) <= 20
  /\ completed_count (fst (get_statistics session_get html_parser self)) <= 20
  /\ movies_count (fst (get_statistics session_get html_parser self)) <= 20
  /\ cache_size (fst (get_statistics session_get html_parser self))
     = size (cache (snd (get_statistics session_get html_parser self)))
  /\ size (cache self)
     <= cache_size (fst (get_statistics session_get html_parser self))
  /\ cache_size (fst (get_statistics session_get html_parser self))
     <= size (cache self) + 2
  /\ exists extra,
       transport_log (snd (get_statistics session_get html_parser self))
       = transport_log self ++ extra
       /\ length extra <= 2.
Proof.
  unfold get_statistics.
  rewrite scrape_home_page_page, scrape_anime_list_page.
  cbn [fst snd ongoing_count completed_count movies_count cache_size].
  set (s1 := snd (get_page session_get base_url true self)).
  set (s2 := snd (get_page session_get _ true s1)).
  destruct (get_page_cache_size base_url true self) as [Hlo1 Hhi1].
  destruct (get_page_cache_size (base_url ++ "/anime-list-baru")%string true s1)
    as [Hlo2 Hhi2].
  destruct (get_page_log base_url true self) as (e1 & He1 & Hl1).
  destruct (get_page_log (base_url ++ "/anime-list-baru")%string true s1)
    as (e2 & He2 & Hl2).
  fold s1 in Hlo1, Hhi1, He1. fold s2 in Hlo2, Hhi2, He2.
  assert (Hbucket : forall (p : Anime -> bool) l,
             length (firstn 20 (List.filter p l)) <= 20)
    by (intros; apply firstn_le_length).
  repeat split; try lia;
    try (destruct (fst (get_page session_get base_url true self)) as [[|c html]|];
         cbn; (lia || apply Hbucket)).
  exists (e1 ++ e2). rewrite He2, He1, <- app_assoc, length_app.
  split; [reflexivity|lia].
Qed.

End DetailFacts.

Example scrape_anime_details_example :
  fst (scrape_anime_details detail_server detail_parser detail_find
                            detail_get_text
                            "https://meownime.ltd/naruto-sub-indo/" (new_scraper 0))
  = Some naruto_detail.
Proof. vm_compute. reflexivity. Qed.

Lemma scrape_anime_details_title_witness :
  detail_title naruto_detail = "Naruto".
Proof.
  apply (scrape_anime_details_title
           detail_server detail_parser detail_find detail_get_text
           "https://meownime.ltd/naruto-sub-indo/" (new_scraper 0)
           detail_page_html naruto_detail
           ["h1"; ".entry-title"; ".post-title"] [] "title"
           (paragraph "Naruto Subtitle Indonesia Batch")).
  - vm_compute. reflexivity.
  - vm_compute. reflexivity.
  - reflexivity.
  - repeat constructor.
  - reflexivity.
Defined.

Lemma scrape_anime_details_unknown_title_witness :
  detail_title untitled_detail = "Unknown Title".
Proof.
  apply (scrape_anime_details_unknown_title
           detail_server detail_parser find_nothing detail_get_text
           "https://meownime.ltd/naruto-sub-indo/" (new_scraper 0)
           detail_page_html untitled_detail).
  - vm_compute. reflexivity.
  - vm_compute. reflexivity.
  - repeat constructor.
Defined.

Lemma extract_metadata_genre_witness :
  genre (extract_metadata detail_get_text detail_page) = ["Action"; "Adventure"].
Proof.
  apply (extract_metadata_genre detail_get_text detail_page
                                [".genre a"] (skipn 2 genre_selectors) ".genres a").
  - reflexivity.
  - repeat constructor.
  - discriminate.
Defined.

Lemma extract_metadata_year_witness :
  Py.contains "2002" (detail_get_text detail_page) = true
  /\ exists c d,
       ("2002" = String "1" (String "9" (String c (String d "")))
        \/ "2002" = String "2" (String "0" (String c (String d ""))))
       /\ isdigit c = true /\ isdigit d = true.
Proof.
  apply (extract_metadata_year detail_get_text detail_page "2002").
  reflexivity.
Defined.

Example year_search_examples :
  year_search false "Released in 2019, 24 eps" = Some "2019"
  /\ year_search false "id12019 x 1999x 2005" = Some "2005"
  /\ year_search false "a_2024 1850 2100 20245" = None.
Proof. repeat split; reflexivity. Qed.

Example get_statistics_example :
  fst (get_statistics list_page_server list_page_parser (new_scraper 0))
  = {| total_anime := 3; ongoing_count := 0; completed_count := 3;
       movies_count := 0; cache_size := 2 |}
  /\ transport_log
       (snd (get_statistics list_page_server list_page_parser (new_scraper 0)))
     = ["https://meownime.ltd"; "https://meownime.ltd/anime-list-baru"].
Proof. split; vm_compute; reflexivity. Qed.

(** ** Download links: which links are returned *)

Section FirstOccurrencesCount.
Context {A : Type} (key : A -> string) (eligible : string -> bool).
Hypothesis all_eligible : forall k, eligible k = true.

Lemma first_occurrences_count (seen : gset string) l :
  length (first_occurrences key eligible seen l) + size seen
  = size (list_to_set (map key l) ∪ seen).
Proof.
  revert seen. induction l as [|x l IH]; intros seen.
  - cbn [first_occurrences map length]. rewrite list_to_set_nil.
    now rewrite (left_id_L ∅ (∪)).
  - cbn [first_occurrences map]. rewrite list_to_set_cons, all_eligible, andb_true_r.
    destruct (decide (key x ∈ seen)) as [Hin|Hnin].
    + rewrite bool_decide_eq_false_2 by tauto. rewrite IH. f_equal.
      apply set_eq. intros k. rewrite !elem_of_union, elem_of_singleton.
      split; [tauto|]. intros [[->|?]|?]; tauto.
    + rewrite bool_decide_eq_true_2 by assumption. cbn [length].
      specialize (IH ({[key x]} ∪ seen)).
      rewrite size_union, size_singleton in IH
        by (apply disjoint_singleton_l; assumption).
      replace (list_to_set (map key l) ∪ ({[key x]} ∪ seen))
        with ({[key x]} ∪ list_to_set (map key l) ∪ seen) in IH; [lia|].
      apply set_eq. intros k. rewrite !elem_of_union. tauto.
Qed.

Lemma first_occurrences_fresh seen x l :
  key x ∉ seen ->
  first_occurrences key eligible seen (x :: l)
  = x :: first_occurrences key eligible ({[key x]} ∪ seen) l.
Proof.
  intros H. cbn [first_occurrences].
  now rewrite bool_decide_eq_true_2, all_eligible by assumption.
Qed.
End FirstOccurrencesCount.

Lemma download_anchors_filter soup :
  List.filter (fun link => is_download_href (get_href link)) (find_all_a_href soup)
  = download_anchors (anchors soup).
Proof.
  unfold find_all_a_href, download_anchors, get_href, is_download_href.
  induction (anchors soup) as [|link links IH]; [reflexivity|].
  cbn [List.filter]. destruct (tag_href link) as [href|] eqn:Hhref; [|exact IH].
  cbn [List.filter]. rewrite Hhref, IH. reflexivity.
Qed.

Lemma download_anchors_urls links :
  map link_url (map download_link_of (download_anchors links))
  = map get_href (download_anchors links).
Proof. rewrite map_map. reflexivity. Qed.

Lemma extract_download_links_anchors soup :
  extract_download_links soup
  = firstn 10
      (first_occurrences link_url (fun _ => true) ∅
         (map download_link_of (download_anchors (anchors soup)))).
Proof.
  now rewrite extract_download_links_first_occurrences, download_anchors_filter.
Qed.

Lemma In_firstn_app_l {A : Type} (x : A) n l1 l2 :
  length l1 <= n -> In x l1 -> In x (firstn n (l1 ++ l2)).
Proof.
  intros Hlen Hin. rewrite firstn_app, firstn_all2 by assumption.
  apply in_or_app. now left.
Qed.

Lemma In_firstn_app_head {A : Type} (x : A) n l1 l2 :
  length l1 < n -> In x (firstn n (l1 ++ x :: l2)).
Proof.
  intros Hlen. rewrite firstn_app, firstn_all2 by lia.
  apply in_or_app. right.
  destruct (n - length l1) as [|k] eqn:Hk; [lia|]. now left.
Qed.

(** C8: every link returned by [extract_download_links] comes from an
    anchor of the document whose href contains one of the allowlisted
    domains; no two links returned have the same url; at most 10 links are
    returned; and when no anchor has an href with an allowlisted domain the
    result is the empty list.  The links returned are those of the
    allowlisted anchors, one per url, in document order: their number is
    the number of distinct allowlisted hrefs, or 10 when there are more;
    an allowlisted anchor with fewer than 10 distinct allowlisted hrefs
    before it has its href among the urls returned, and when its href is
    new its own link (text, url and type) is returned. *)
Theorem extract_download_links_allowlisted (soup : BeautifulSoup) :
  Forall (fun l =>
            (exists domain, In domain download_domains
                            /\ Py.contains domain (link_url l) = true)
            /\ exists a, In a (anchors soup) /\ tag_href a = Some (link_url l))
         (extract_download_links soup)
  /\ NoDup (map link_url (extract_download_links soup))
  /\ length (extract_download_links soup) <= 10
  /\ ((forall a h, In a (anchors soup) -> tag_href a = Some h ->
                   is_download_href h = false) ->
      extract_download_links soup = [])
  /\ length (extract_download_links soup)
     = Nat.min 10
         (size (list_to_set (map get_href (download_anchors (anchors soup)))
                : gset string))
  /\ sublist (extract_download_links soup)
             (map download_link_of (download_anchors (anchors soup)))
  /\ (forall pre a post h,
        anchors soup = pre ++ a :: post ->
        tag_href a = Some h ->
        is_download_href h = true ->
        size (list_to_set (map get_href (download_anchors pre)) : gset string)
        < 10 ->
        In h (map link_url (extract_download_links soup))
        /\ (~ In h (map get_href (download_anchors pre)) ->
            In (download_link_of a) (extract_download_links soup))).
Proof.
  split; [|split; [|split; [|split; [|split; [|split]]]]].
  - rewrite extract_download_links_first_occurrences.
    apply List.Forall_forall. intros l Hl.
    apply In_firstn in Hl.
    apply first_occurrences_In in Hl as (pre & post & Heq & _).
    assert (Hin : In l (map download_link_of
                            (List.filter
                               (fun link => is_download_href (get_href link))
                               (find_all_a_href soup))))
      by (rewrite Heq; apply in_or_app; right; now left).
    apply in_map_iff in Hin as (a & <- & Ha).
    apply filter_In in Ha as [Ha Hd].
    apply find_all_a_href_In in Ha as [Ha Hh]. simpl.
    split; [|now exists a].
    apply existsb_exists in Hd as (domain & Hdom & Hc). now exists domain.
  - rewrite extract_download_links_first_occurrences.
    apply NoDup_map_firstn, first_occurrences_NoDup.
  - rewrite extract_download_links_first_occurrences. apply firstn_le_length.
  - intros Hnone. rewrite extract_download_links_first_occurrences.
    assert (Hk : List.filter (fun link => is_download_href (get_href link))
                             (find_all_a_href soup) = []).
    { destruct (List.filter _ _) as [|a l] eqn:Hf; [reflexivity|].
      assert (Ha : In a (a :: l)) by now left.
      rewrite <- Hf in Ha. apply filter_In in Ha as [Ha Hd].
      apply find_all_a_href_In in Ha as [Ha Hh].
      now rewrite (Hnone _ _ Ha Hh) in Hd. }
    rewrite Hk. reflexivity.
  - rewrite extract_download_links_anchors, length_firstn. f_equal.
    pose proof (first_occurrences_count link_url (fun _ => true)
                  (fun _ => eq_refl) ∅
                  (map download_link_of (download_anchors (anchors soup))))
      as Hcount.
    rewrite size_empty, Nat.add_0_r, (right_id_L ∅ (∪)) in Hcount.
    now rewrite Hcount, download_anchors_urls.
  - rewrite extract_download_links_anchors.
    etransitivity; [apply sublist_take|apply first_occurrences_sublist].
  - intros pre a post h Hsplit Hhref Hd Hfew.
    rewrite extract_download_links_anchors, Hsplit.
    assert (Hkept : download_anchors (pre ++ a :: post)
                    = download_anchors pre ++ a :: download_anchors post).
    { unfold download_anchors. rewrite List.filter_app. cbn [List.filter].
      rewrite Hhref. unfold is_download_href in Hd. now rewrite Hd. }
    rewrite Hkept, map_app. cbn [map].
    rewrite first_occurrences_app.
    set (before := first_occurrences link_url (fun _ => true) ∅
                     (map download_link_of (download_anchors pre))).
    assert (Hlen : length before < 10).
    { pose proof (first_occurrences_count link_url (fun _ => true)
                    (fun _ => eq_refl) ∅
                    (map download_link_of (download_anchors pre))) as Hcount.
      rewrite size_empty, Nat.add_0_r, (right_id_L ∅ (∪)),
        download_anchors_urls in Hcount.
      unfold before. lia. }
    assert (Hurl : link_url (download_link_of a) = h).
    { cbn [download_link_of link_url]. unfold get_href. now rewrite Hhref. }
    destruct (in_dec String.string_dec h (map get_href (download_anchors pre)))
      as [Hseen|Hnew].
    + split; [|contradiction].
      rewrite <- firstn_map, map_app. apply In_firstn_app_l.
      * rewrite length_map. lia.
      * apply first_occurrences_keys;
          [now rewrite download_anchors_urls|reflexivity|apply not_elem_of_empty].
    + assert (Hfresh : link_url (download_link_of a)
                       ∉ list_to_set (map link_url before) ∪ (∅ : gset string)).
      { rewrite Hurl, (right_id_L ∅ (∪)), elem_of_list_to_set, list_elem_of_In.
        intros Hin. apply Hnew. rewrite <- download_anchors_urls.
        apply in_map_iff in Hin as (l & <- & Hl). apply in_map.
        unfold before in Hl.
        apply first_occurrences_In in Hl as (p1 & p2 & -> & _).
        apply in_or_app. right. now left. }
      rewrite (first_occurrences_fresh link_url (fun _ => true)
                 (fun _ => eq_refl) _ _ _ Hfresh).
      assert (Hin : In (download_link_of a)
                       (firstn 10
                          (before
                           ++ download_link_of a
                              :: first_occurrences link_url (fun _ => true)
                                   ({[link_url (download_link_of a)]}
                                    ∪ (list_to_set (map link_url before) ∪ ∅))
                                   (map download_link_of (download_anchors post)))))
        by now apply In_firstn_app_head.
      split; [|intros _; exact Hin].
      rewrite <- Hurl. now apply in_map.
Qed.

Example extract_download_links_count_example :
  length (extract_download_links download_page) = 2
  /\ size (list_to_set (map get_href (download_anchors (anchors download_page)))
           : gset string) = 2.
Proof. split; vm_compute; reflexivity. Qed.

(** ** The routes *)

Section RouteFacts.
Context {World : Type}.
Variable session_get : string -> World -> Outcome * World.
Variable html_parser : string -> BeautifulSoup.
Variable find : BeautifulSoup -> string -> option Tag.
Variable get_text : BeautifulSoup -> string.

(** X26: whatever the call of [scrape_anime_details] does, the route
    [api_anime_details] answers 400 and leaves the scraper alone when the
    url parameter is absent or empty; otherwise it calls the method once
    and answers 500 with the message when the call raises, 404 when it
    returns [None], and the detail with status 200 when it returns one.
    When the call returns what [scrape_anime_details] computes, the answer
    is 404 if [get_page] gives [None] or an empty body and else status 200
    with a detail of the url asked. *)
Theorem api_anime_details_status
        (method : string -> Scraper World
                  -> Run (option AnimeDetail) * Scraper World)
        (url : option string) (scraper : Scraper World) :
  (url = None \/ url = Some "" ->
   api_anime_details method url scraper
   = (ApiError "URL parameter required" 400, scraper))
  /\ (forall anime_url, url = Some anime_url -> anime_url <> "" ->
        snd (api_anime_details method url scraper)
        = snd (method anime_url scraper)
        /\ (forall e, fst (method anime_url scraper) = Raises e ->
              fst (api_anime_details method url scraper)
              = ApiError ("An error occurred: " ++ e)%string 500)
        /\ (fst (method anime_url scraper) = Returns None ->
            fst (api_anime_details method url scraper)
            = ApiError "Failed to fetch anime details" 404)
        /\ (forall detail,
              fst (method anime_url scraper) = Returns (Some detail) ->
              fst (api_anime_details method url scraper) = ApiOk detail)
        /\ (method anime_url scraper
            = returning (scrape_anime_details session_get html_parser find
                                              get_text anime_url scraper) ->
            (fst (get_page session_get anime_url true scraper) = None
             \/ fst (get_page session_get anime_url true scraper) = Some "" ->
             fst (api_anime_details method url scraper)
             = ApiError "Failed to fetch anime details" 404)
            /\ (forall html,
                  fst (get_page session_get anime_url true scraper) = Some html ->
                  html <> "" ->
                  exists detail,
                    fst (api_anime_details method url scraper) = ApiOk detail
                    /\ detail_url detail = anime_url))).
Proof.
  split.
  - intros [->| ->]; reflexivity.
  - intros anime_url -> Hne. destruct anime_url as [|c u]; [contradiction|].
    cbn [api_anime_details].
    destruct (method (String c u) scraper) as [run s1] eqn:Hrun. cbn [fst snd].
    split; [reflexivity|].
    split; [now intros e ->|]. split; [now intros ->|].
    split; [now intros detail ->|].
    unfold returning. rewrite scrape_anime_details_page. cbn [fst snd].
    intros [= -> _].
    destruct (fst (get_page session_get (String c u) true scraper))
      as [[|c' html]|]; cbn [handle_api_error].
    + split; [reflexivity|]. now intros body [= <-].
    + split; [intros [H|H]; discriminate H|].
      intros body _ _. eexists. split; reflexivity.
    + split; [reflexivity|]. discriminate.
Qed.

(** X27: whatever the call of [search_anime] does, the route [api_search]
    answers 400 and leaves the scraper alone when the parameter q is absent
    or empty; otherwise it calls the method once and answers 500 with the
    message when the call raises and the results with status 200 when it
    returns.  A query of white space only is not empty: it is passed on,
    and when the call returns what [search_anime] computes the list page
    has been fetched through [get_page] and the answer is the empty list
    with status 200. *)
Theorem api_search_status
        (method : string -> Scraper World -> Run (list Anime) * Scraper World)
        (q : option string) (scraper : Scraper World) :
  (q = None \/ q = Some "" ->
   api_search method q scraper
   = (ApiError "Query parameter 'q' required" 400, scraper))
  /\ (forall query, q = Some query -> query <> "" ->
        snd (api_search method q scraper) = snd (method query scraper)
        /\ (forall e, fst (method query scraper) = Raises e ->
              fst (api_search method q scraper)
              = ApiError ("An error occurred: " ++ e)%string 500)
        /\ (forall results, fst (method query scraper) = Returns results ->
              fst (api_search method q scraper) = ApiOk results)
        /\ (Py.strip (Py.lower query) = "" ->
            method query scraper
            = returning (search_anime session_get html_parser query scraper) ->
            api_search method q scraper
            = (ApiOk [],
               snd (get_page session_get (base_url ++ "/anime-list-baru")%string
                             true scraper)))).
Proof.
  split.
  - intros [->| ->]; reflexivity.
  - intros query -> Hne. destruct query as [|c query]; [contradiction|].
    unfold api_search. cbn [Py.truthy String.eqb negb].
    destruct (method (String c query) scraper) as [run s1] eqn:Hrun.
    cbn [fst snd].
    split; [reflexivity|]. split; [now intros e ->|].
    split; [now intros results ->|].
    intros Hblank. unfold returning, search_anime.
    rewrite scrape_anime_list_page. cbn [fst snd].
    rewrite search_results_blank by assumption. now intros [= -> ->].
Qed.
End RouteFacts.

Example api_anime_details_raising :
  api_anime_details details_raising
                    (Some "https://meownime.ltd/naruto-sub-indo/") (new_scraper 0)
  = (ApiError "An error occurred: Failed to parse" 500, new_scraper 0)
  /\ api_anime_details details_raising (Some "") (new_scraper 0)
     = (ApiError "URL parameter required" 400, new_scraper 0).
Proof. split; reflexivity. Qed.

Example api_anime_details_returning :
  fst (api_anime_details
         (fun url scraper =>
            returning (scrape_anime_details detail_server detail_parser
                                            detail_find detail_get_text
                                            url scraper))
         (Some "https://meownime.ltd/naruto-sub-indo/") (new_scraper 0))
  = ApiOk naruto_detail.
Proof. vm_compute. reflexivity. Qed.
